(** * Planner service: persistence gateway, plan synthesizer, task refiner

    A shallow embedding of the project-planner backend:
    - [src/app/core/mongodb.py] and [src/planner-agent-/app/core/mongodb.py]
      (the persistence gateway, in two copies),
    - [src/app/core/planner.py] (plan synthesizer and task refiner),
    - [src/planner-agent-/app/api/routes.py] (the plan route).

    Python values are an inductive type, dictionaries are finite maps,
    exceptions are data, and every operation that touches the document
    store threads the store explicitly.  Library code the service calls
    (bson, json, tenacity, the document store, the LLM chain) is not part
    of the service: what it computes is either a field of the class
    [Libraries] or a function argument. *)

From Stdlib Require Import ZArith Ascii String List Bool Lia.
From stdpp Require Import gmap strings list fin_maps.

Open Scope string_scope.

(** ** Python values *)

(** Floats are never computed with by the service; they are carried by
    their literal.  [VTime] is a [datetime], [VOid] a bson [ObjectId] held
    by its 24-character rendering. *)
#[warnings="-register-all"] Inductive value : Type :=
| VNone
| VBool (b : bool)
| VInt (n : Z)
| VFloat (lexeme : string)
| VStr (s : string)
| VTime (t : Z)
| VOid (h : string)
| VList (l : list value)
| VDict (d : gmap string value).

Abbreviation doc := (gmap string value).

(** ** Exceptions and results *)

Inductive exn : Type :=
| InvalidId (oid : string)
| HTTPException (status_code : Z) (detail : value)
| ValueError (msg : string)
| KeyError (key : string)
| TypeError
| AttributeError
| JSONDecodeError (msg : string)
| RateLimitError (msg : string)
| APIError (msg : string)
| RetryError (last_attempt : exn)
| OtherError (msg : string).

Inductive outcome (A : Type) : Type :=
| Return (a : A)
| Raise (e : exn).
Arguments Return {A} a.
Arguments Raise {A} e.

(** ** String operations of the Python [str] type (ASCII text) *)

Definition py_isspace (c : ascii) : bool :=
  let n := nat_of_ascii c in
  ((9 <=? n)%nat && (n <=? 13)%nat) || ((28 <=? n)%nat && (n <=? 32)%nat).

Fixpoint lstrip (s : string) : string :=
  match s with
  | "" => ""
  | String c r => if py_isspace c then lstrip r else s
  end.

Fixpoint rstrip (s : string) : string :=
  match s with
  | "" => ""
  | String c r =>
      match rstrip r with
      | "" => if py_isspace c then "" else String c ""
      | r' => String c r'
      end
  end.

(** [s.strip()] *)
Definition strip (s : string) : string := rstrip (lstrip s).

(** [s.startswith(p)] *)
Definition startswith (s p : string) : bool := String.prefix p s.

(** [s.find(sub)]: index of the first occurrence, [-1] when there is none. *)
Fixpoint find (s sub : string) : Z :=
  if String.prefix sub s then 0%Z
  else match s with
       | "" => (-1)%Z
       | String _ r => let k := find r sub in
                       if (k =? -1)%Z then (-1)%Z else (k + 1)%Z
       end.

(** [s.rfind(sub)]: index of the last occurrence, [-1] when there is none. *)
Fixpoint rfind (s sub : string) : Z :=
  match s with
  | "" => if String.prefix sub "" then 0%Z else (-1)%Z
  | String _ r =>
      let k := rfind r sub in
      if (k =? -1)%Z then (if String.prefix sub s then 0%Z else (-1)%Z)
      else (k + 1)%Z
  end.

(** [s[a:b]] for non-negative [a] and [b], the only ones the service
    passes (both come from a successful [find]/[rfind]). *)
Definition slice (s : string) (a b : Z) : string :=
  String.substring (Z.to_nat a) (Z.to_nat (b - a)) s.

(** [sep.join(l)] for a list of strings. *)
Fixpoint join (sep : string) (l : list string) : string :=
  match l with
  | [] => ""
  | [x] => x
  | x :: r => x ++ sep ++ join sep r
  end.

(** ** Truthiness, length, iteration, membership *)

Definition float_lexeme_is_zero (lexeme : string) : bool :=
  let fix mantissa_zero (s : string) : bool :=
    match s with
    | "" => true
    | String c r =>
        if (c =? "e")%char || (c =? "E")%char then true
        else ((c =? "0")%char || (c =? ".")%char || (c =? "-")%char) && mantissa_zero r
    end in
  mantissa_zero lexeme.

Definition py_truthy (v : value) : bool :=
  match v with
  | VNone => false
  | VBool b => b
  | VInt n => negb (n =? 0)%Z
  | VFloat x => negb (float_lexeme_is_zero x)
  | VStr s => negb (s =? "")
  | VTime _ | VOid _ => true
  | VList l => match l with [] => false | _ => true end
  | VDict d => negb (bool_decide (d = ∅))
  end.

Fixpoint chars (s : string) : list string :=
  match s with
  | "" => []
  | String c r => String c "" :: chars r
  end.

(** [iter(v)]: [None] stands for the [TypeError] of a non-iterable.  A
    dictionary iterates over its keys. *)
Definition py_iter (v : value) : option (list value) :=
  match v with
  | VList l => Some l
  | VStr s => Some (VStr <$> chars s)
  | VDict d => Some (VStr <$> (map_to_list d).*1)
  | _ => None
  end.

(** [len(v)]: [None] stands for the [TypeError] of an unsized value. *)
Definition py_len (v : value) : option nat :=
  match v with
  | VList l => Some (length l)
  | VStr s => Some (String.length s)
  | VDict d => Some (size d)
  | _ => None
  end.

Definition is_str (s : string) (v : value) : bool :=
  match v with
  | VStr s' => (s' =? s)
  | _ => false
  end.

(** [item in container] for a string [item]: key membership in a
    dictionary, element membership in a list, substring test in a string,
    [TypeError] ([None]) otherwise. *)
Definition py_contains (container : value) (item : string) : option bool :=
  match container with
  | VDict d => Some (bool_decide (is_Some (d !! item)))
  | VList l => Some (existsb (is_str item) l)
  | VStr s => Some (negb (find s item =? -1)%Z)
  | _ => None
  end.

(** [d.get(k, default)] *)
Definition dict_get (d : doc) (k : string) (default : value) : value :=
  match d !! k with
  | Some v => v
  | None => default
  end.

(** ** Library behaviour the service relies on *)

(** What the libraries compute is not decided by the service; the
    development is parametric in it.
    - [ObjectId s] is bson's constructor on a [str]: [None] is the
      [InvalidId] error, [Some h] the identifier, held by its rendering
      [str(ObjectId(s))].
    - [json_loads s] is [json.loads]: [None] is a [JSONDecodeError], whose
      message is [json_error s].
    - [json_serializable v] tells whether [json.dumps(v, indent=2)]
      returns; otherwise it raises [TypeError].
    - [lib_str e] is [str(e)] for the exceptions whose rendering a library
      or the interpreter fixes; [repr_value v] is [str(v)] for values other
      than strings and identifiers. *)
Class Libraries := {
  ObjectId : string -> option string;
  json_loads : string -> option value;
  json_error : string -> string;
  json_serializable : value -> bool;
  lib_str : exn -> string;
  repr_value : value -> string
}.

Section Python.
Context {libs : Libraries}.

(** [str(e)] *)
Definition py_str (e : exn) : string :=
  match e with
  | ValueError m | JSONDecodeError m | RateLimitError m | APIError m
  | OtherError m => m
  | KeyError k => "'" ++ k ++ "'"
  | _ => lib_str e
  end.

(** [str(v)] *)
Definition str_value (v : value) : string :=
  match v with
  | VStr s => s
  | VOid h => h
  | _ => repr_value v
  end.

(** [ObjectId(v) if ObjectId.is_valid(v) else v] *)
Definition to_ObjectId (v : value) : value :=
  match v with
  | VStr s => match ObjectId s with Some h => VOid h | None => v end
  | _ => v
  end.

(** [str(v) if isinstance(v, ObjectId) else v] *)
Definition ObjectId_to_str (v : value) : value :=
  match v with
  | VOid h => VStr h
  | _ => v
  end.

End Python.

(** ** The document store *)

(** Two collections.  [projects] is keyed by [_id] (unique in the store);
    a stored project is held without its [_id] field, which [find_one]
    puts back.  [project_plans] holds the plan rows in insertion order;
    their store-assigned [_id] is not represented.  Field names are
    top-level names; restrictions of the wire format on documents are not
    modelled, so a write to a connected store always succeeds. *)
Record database := {
  projects : gmap string doc;
  project_plans : list doc
}.

(** [MongoDB.db]: [None] until [connect_to_mongo] has run. *)
Abbreviation store := (option database).

(** Computations over the store that may raise.  A raised exception keeps
    the writes made before it. *)
Definition M (A : Type) : Type := store -> outcome A * store.

Definition ret {A} (a : A) : M A := fun st => (Return a, st).
Definition raise {A} (e : exn) : M A := fun st => (Raise e, st).
Definition bind {A B} (m : M A) (k : A -> M B) : M B :=
  fun st => match m st with
            | (Return a, st') => k a st'
            | (Raise e, st') => (Raise e, st')
            end.
(** [try: m  except Exception as e: h e] *)
Definition try_except {A} (m : M A) (h : exn -> M A) : M A :=
  fun st => match m st with
            | (Return a, st') => (Return a, st')
            | (Raise e, st') => h e st'
            end.
(** A pure step that may raise. *)
Definition lift {A} (o : outcome A) : M A := fun st => (o, st).

Notation "x <- m ;; k" := (bind m (fun x => k))
  (at level 20, m at level 99, k at level 200, right associativity).
Notation "'do' m ;; k" := (bind m (fun _ => k))
  (at level 20, m at level 99, k at level 200, right associativity).

Definition get_db : M store := fun st => (Return st, st).
Definition put_db (db : database) : M unit := fun _ => (Return tt, Some db).

(** [collection.find_one({"_id": oid})] on [projects] *)
Definition find_one_project (db : database) (oid : string) : option doc :=
  (fun d => <["_id" := VOid oid]> d) <$> projects db !! oid.

(** [find_one_and_update({"_id": oid}, {"$set": upd}, AFTER)] on
    [projects]: the updated document, or [None] when nothing matches. *)
Definition find_one_and_update_project (db : database) (oid : string) (upd : doc)
  : option doc * database :=
  match projects db !! oid with
  | Some d =>
      let d' := upd ∪ d in
      (Some (<["_id" := VOid oid]> d'),
       {| projects := <[oid := d']> (projects db);
          project_plans := project_plans db |})
  | None => (None, db)
  end.

(** The filter [{"project_id": pid}]: the row's [project_id] is that
    string. *)
Definition plan_matches (pid : string) (d : doc) : bool :=
  match d !! "project_id" with
  | Some v => is_str pid v
  | None => false
  end.

(** [find_one({"project_id": pid})] on [project_plans] *)
Definition find_one_plan (db : database) (pid : string) : option doc :=
  List.find (plan_matches pid) (project_plans db).

(** [update_one({"project_id": pid}, {"$set": upd}, upsert=True)] on the
    rows: the first matching row gets the fields of [upd]; without a match
    a row is inserted, built from the filter and then the update. *)
Fixpoint upsert_rows (pid : string) (upd : doc) (rows : list doc) : list doc :=
  match rows with
  | [] => [upd ∪ {["project_id" := VStr pid]}]
  | d :: r => if plan_matches pid d then (upd ∪ d) :: r
              else d :: upsert_rows pid upd r
  end.

Definition update_one_plan (db : database) (pid : string) (upd : doc) : database :=
  {| projects := projects db;
     project_plans := upsert_rows pid upd (project_plans db) |}.

(** [insert_one(data)] on [projects]; [new_id] is the identifier the
    store generates for the document, one that no stored project has.  The
    data of the service carries no [_id] of its own. *)
Definition insert_one_project (db : database) (new_id : string) (data : doc) : database :=
  {| projects := <[new_id := data]> (projects db);
     project_plans := project_plans db |}.

(** [find()] on [projects]: every stored project with its [_id].  The
    documents come in the order of the map; the order in which a store
    returns them is not represented. *)
Definition find_projects (db : database) : list doc :=
  (fun kd => <["_id" := VOid kd.1]> kd.2) <$> map_to_list (projects db).

(** The projection [{"description": 1, "title": 1}]: the named fields and
    [_id]. *)
Definition project_title_description (d : doc) : doc :=
  filter (fun kv => kv.1 = "_id" \/ kv.1 = "description" \/ kv.1 = "title") d.

(** [update_one({"project_id": pid}, {"$set": upd})] on the rows, without
    upsert: the first matching row gets the fields of [upd]. *)
Fixpoint update_rows (pid : string) (upd : doc) (rows : list doc) : list doc :=
  match rows with
  | [] => []
  | d :: r => if plan_matches pid d then (upd ∪ d) :: r
              else d :: update_rows pid upd r
  end.

(** [matched_count] of that update. *)
Definition matched_count (pid : string) (rows : list doc) : nat :=
  if existsb (plan_matches pid) rows then 1 else 0.

Definition db_not_initialized : exn :=
  HTTPException 500 (VStr "Database connection not initialized").

(** ** Persistence gateway, [src/app/core/mongodb.py] *)

Module AppMongoDB.
Section Gateway.
Context {libs : Libraries}.

(** [MongoDB.get_project] (lines 82-97).  An absent project gives [None]. *)
Definition get_project (project_id : string) : M value :=
  try_except
    (st <- get_db ;;
     match st with
     | None => raise db_not_initialized
     | Some db =>
         match ObjectId project_id with
         | None => raise (InvalidId project_id)
         | Some obj_id =>
             match find_one_project db obj_id with
             | Some project =>
                 if py_truthy (VDict project) then
                   ret (VDict (<["_id" := VStr (str_value (dict_get project "_id" VNone))]>
                                 project))
                 else ret VNone
             | None => ret VNone
             end
         end
     end)
    (fun e => raise e).

(** [MongoDB.store_project_plan] (lines 99-120).  The Python function
    returns [True] and updates the caller's dictionary [plan] in place;
    the result here is the final content of that dictionary.  [now] is the
    reading of [datetime.utcnow()]. *)
Definition store_project_plan (project_id : string) (plan : value) (now : Z) : M doc :=
  try_except
    (st <- get_db ;;
     match st with
     | None => raise db_not_initialized
     | Some db =>
         match plan with
         | VDict plan =>
             let plan := <["updated_at" := VTime now]> plan in
             let plan :=
               if negb (bool_decide (is_Some (plan !! "created_at")))
               then <["created_at" := dict_get plan "updated_at" VNone]> plan
               else plan in
             do put_db (update_one_plan db project_id plan) ;;
             ret plan
         | _ => raise TypeError
         end
     end)
    (fun e => raise e).

End Gateway.
End AppMongoDB.

(** ** Persistence gateway, [src/planner-agent-/app/core/mongodb.py] *)

Module AgentMongoDB.
Section Gateway.
Context {libs : Libraries}.

(** [MongoDB.get_project] (lines 77-92).  An absent project gives [{}]. *)
Definition get_project (project_id : string) : M value :=
  try_except
    (st <- get_db ;;
     match st with
     | None => raise db_not_initialized
     | Some db =>
         match ObjectId project_id with
         | None => raise (InvalidId project_id)
         | Some obj_id =>
             match find_one_project db obj_id with
             | Some project =>
                 if py_truthy (VDict project) then
                   ret (VDict (<["_id" := VStr (str_value (dict_get project "_id" VNone))]>
                                 project))
                 else ret (VDict ∅)
             | None => ret (VDict ∅)
             end
         end
     end)
    (fun e => raise e).

(** [MongoDB.store_project_plan] (lines 94-115), the same text as in
    [src/app]. *)
Definition store_project_plan (project_id : string) (plan : value) (now : Z) : M doc :=
  try_except
    (st <- get_db ;;
     match st with
     | None => raise db_not_initialized
     | Some db =>
         match plan with
         | VDict plan =>
             let plan := <["updated_at" := VTime now]> plan in
             let plan :=
               if negb (bool_decide (is_Some (plan !! "created_at")))
               then <["created_at" := dict_get plan "updated_at" VNone]> plan
               else plan in
             do put_db (update_one_plan db project_id plan) ;;
             ret plan
         | _ => raise TypeError
         end
     end)
    (fun e => raise e).

(** The comprehension [[f(t) for t in v]]. *)
Definition map_iter (f : value -> value) (v : value) : outcome value :=
  match py_iter v with
  | Some l => Return (VList (f <$> l))
  | None => Raise TypeError
  end.

(** [MongoDB._serialize_project] (lines 181-197) *)
Definition _serialize_project (project : doc) : outcome doc :=
  if negb (py_truthy (VDict project)) then Return ∅
  else
    match project !! "_id" with
    | None => Raise (KeyError "_id")
    | Some i =>
        let project := <["_id" := VStr (str_value i)]> project in
        let project :=
          match project !! "user" with
          | Some (VOid h) => <["user" := VStr (str_value (VOid h))]> project
          | _ => project
          end in
        match project !! "tasks" with
        | Some tasks =>
            match map_iter ObjectId_to_str tasks with
            | Return l => Return (<["tasks" := l]> project)
            | Raise e => Raise e
            end
        | None => Return project
        end
    end.

(** The handlers shared by [update_project] and [soft_delete_project]:
    [except InvalidId: raise] and
    [except Exception as e: raise HTTPException(500, detail=str(e))]. *)
Definition reraise_invalid_id {A} (e : exn) : M A :=
  match e with
  | InvalidId _ => raise e
  | _ => raise (HTTPException 500 (VStr (py_str e)))
  end.

(** The task-id conversion of [update_project] (lines 208-216): a failure
    inside the [try] keeps the original list. *)
Definition convert_tasks (update_data : doc) : doc :=
  match update_data !! "tasks" with
  | Some tasks =>
      if py_truthy tasks then
        match map_iter to_ObjectId tasks with
        | Return l => <["tasks" := l]> update_data
        | Raise _ => update_data
        end
      else update_data
  | None => update_data
  end.

(** [MongoDB.update_project] (lines 199-238) *)
Definition update_project (project_id : string) (update_data : doc) (now : Z) : M value :=
  try_except
    (st <- get_db ;;
     match st with
     | None => raise db_not_initialized
     | Some db =>
         match ObjectId project_id with
         | None => raise (InvalidId project_id)
         | Some obj_id =>
             let update_data := convert_tasks update_data in
             let update_data := <["updated_at" := VTime now]> update_data in
             let '(updated_project, db) := find_one_and_update_project db obj_id update_data in
             do put_db db ;;
             match updated_project with
             | Some project =>
                 if py_truthy (VDict project)
                 then p <- lift (_serialize_project project) ;; ret (VDict p)
                 else ret VNone
             | None => ret VNone
             end
         end
     end)
    reraise_invalid_id.

(** The update document of [soft_delete_project] (lines 251-254). *)
Definition delete_update (now : Z) : doc :=
  <["updated_at" := VTime now]> (<["status" := VStr "deleted"]> ∅).

(** [MongoDB.soft_delete_project] (lines 241-273) *)
Definition soft_delete_project (project_id : string) (now : Z) : M value :=
  try_except
    (st <- get_db ;;
     match st with
     | None => raise db_not_initialized
     | Some db =>
         match ObjectId project_id with
         | None => raise (InvalidId project_id)
         | Some obj_id =>
             let '(deleted_project, db) :=
               find_one_and_update_project db obj_id (delete_update now) in
             do put_db db ;;
             match deleted_project with
             | Some project =>
                 if py_truthy (VDict project)
                 then p <- lift (_serialize_project project) ;; ret (VDict p)
                 else ret VNone
             | None => ret VNone
             end
         end
     end)
    reraise_invalid_id.

(** The loop of [connect_to_mongo] (lines 54-70) over the attempts that
    are left.  [ping k] and [count k] are the outcomes of the ping and of
    the two document counts in attempt [k]; [server] is the database the
    handle gives access to.  The result is the number of one-second sleeps
    made. *)
Fixpoint connect_attempts (server : database) (ping count : nat -> outcome unit)
    (attempts : list nat) : M nat :=
  match attempts with
  | [] => ret 0%nat
  | attempt :: rest =>
      try_except
        (do lift (ping attempt) ;;
         do put_db server ;;
         do lift (count attempt) ;;
         ret 0%nat)
        (fun e =>
           if (attempt =? 2)%nat then raise e
           else sleeps <- connect_attempts server ping count rest ;; ret (S sleeps))
  end.

(** [MongoDB.connect_to_mongo] (lines 36-75).  [client] is the outcome of
    building the client from the connection string. *)
Definition connect_to_mongo (server : database) (client : outcome unit)
    (ping count : nat -> outcome unit) : M nat :=
  try_except
    (do lift client ;;
     connect_attempts server ping count (seq 0 3))
    (fun e => raise (HTTPException 500 (VStr ("Failed to connect to MongoDB: " ++ py_str e)))).

(** The rendering of the created project (lines 153-165): the identifiers
    as strings, and the title read for the log line. *)
Definition render_created (created_project : doc) : outcome doc :=
  match created_project !! "_id" with
  | None => Raise (KeyError "_id")
  | Some i =>
      let created_project := <["_id" := VStr (str_value i)]> created_project in
      let created_project :=
        match created_project !! "user" with
        | Some (VOid h) => <["user" := VStr (str_value (VOid h))]> created_project
        | _ => created_project
        end in
      let rendered :=
        match created_project !! "tasks" with
        | Some tasks =>
            match map_iter ObjectId_to_str tasks with
            | Return l => Return (<["tasks" := l]> created_project)
            | Raise e => Raise e
            end
        | None => Return created_project
        end in
      match rendered with
      | Return created_project =>
          match created_project !! "title" with
          | Some _ => Return created_project
          | None => Raise (KeyError "title")
          end
      | Raise e => Raise e
      end
  end.

(** [MongoDB.create_project] (lines 117-171; the same text in [src/app],
    lines 122-176).  [new_id] is the identifier the store generates, [now]
    the clock reading. *)
Definition create_project (project_data : doc) (new_id : string) (now : Z) : M doc :=
  try_except
    (st <- get_db ;;
     match st with
     | None => raise db_not_initialized
     | Some db =>
         let project_data := convert_tasks project_data in
         let project_data :=
           match project_data !! "user" with
           | Some user => <["user" := to_ObjectId user]> project_data
           | None => project_data
           end in
         let project_data := <["created_at" := VTime now]> project_data in
         let project_data :=
           <["updated_at" := dict_get project_data "created_at" VNone]> project_data in
         let db := insert_one_project db new_id project_data in
         do put_db db ;;
         match find_one_project db new_id with
         | Some created_project =>
             if py_truthy (VDict created_project)
             then lift (render_created created_project)
             else raise (HTTPException 500 (VStr "Failed to retrieve created project"))
         | None => raise (HTTPException 500 (VStr "Failed to retrieve created project"))
         end
     end)
    (fun e => raise (HTTPException 500 (VStr (py_str e)))).

End Gateway.
End AgentMongoDB.

(** ** The retry wrapper *)

(** Both [call_with_retry] functions of [planner.py] (lines 110-119 and
    235-241) carry the same decorator:
    [stop_after_attempt(3)], [wait_exponential(multiplier=1, min=4, max=60)],
    [retry_if_exception_type((RateLimitError, APIError))]. *)

Definition retry_if_exception_type (e : exn) : bool :=
  match e with
  | RateLimitError _ | APIError _ => true
  | _ => false
  end.

Definition max_attempt_number : nat := 3.

(** [stop_after_attempt(3)] as a predicate on the attempt number. *)
Definition stop_after_attempt (attempt_number : nat) : bool :=
  (max_attempt_number <=? attempt_number)%nat.

(** The delay before the attempt after [attempt_number]:
    [max(max(0, min), min(multiplier * 2 ** (attempt_number - 1), max))]. *)
Definition wait_exponential (attempt_number : nat) : Z :=
  Z.max (Z.max 0 4) (Z.min (1 * 2 ^ (Z.of_nat attempt_number - 1)) 60).

(** What one run of the wrapper does: its result, the number of calls it
    made to the wrapped function, and the delays it slept, in order. *)
Record retry_run := {
  run_result : outcome string;
  run_calls : nat;
  run_sleeps : list Z
}.

(** The loop of the wrapper.  [call k] is the outcome of the [k]-th
    invocation of the wrapped function ([k] counts from 1) and [more] is
    the number of attempts still allowed after this one.  A success is
    returned; an exception the predicate rejects is re-raised as it is; a
    retryable exception on the last allowed attempt raises [RetryError]. *)
Fixpoint attempt_loop (call : nat -> outcome string) (more attempt_number : nat)
  : retry_run :=
  match call attempt_number with
  | Return r => {| run_result := Return r; run_calls := attempt_number; run_sleeps := [] |}
  | Raise e =>
      if retry_if_exception_type e then
        match more with
        | O => {| run_result := Raise (RetryError e);
                  run_calls := attempt_number; run_sleeps := [] |}
        | S more' =>
            let rest := attempt_loop call more' (S attempt_number) in
            {| run_result := run_result rest;
               run_calls := run_calls rest;
               run_sleeps := wait_exponential attempt_number :: run_sleeps rest |}
        end
      else {| run_result := Raise e; run_calls := attempt_number; run_sleeps := [] |}
  end.

Definition call_with_retry (call : nat -> outcome string) : retry_run :=
  attempt_loop call (max_attempt_number - 1) 1.

(** ** Plan synthesizer and task refiner, [src/app/core/planner.py] *)

Module Planner.

(** The template variables of the plan prompt (lines 47-55). *)
Record plan_context := {
  ctx_title : value;
  ctx_description : value;
  ctx_status : value;
  ctx_team_size : nat;
  ctx_progress : value;
  ctx_tags : string;
  ctx_deadline : value
}.

(** What a chain is invoked with: the plan chain with its context, the
    refinement chain with the task list, which the prompt embeds as
    [json.dumps(tasks, indent=2)]. *)
Inductive chain_input :=
| PlanPrompt (context : plan_context)
| RefinePrompt (tasks : value).

(** The LLM chain [prompt | llm | output_parser]: the outcome of its
    [k]-th invocation on an input. *)
Definition chain := chain_input -> nat -> outcome string.

Definition as_strs (l : list value) : option (list string) :=
  mapM (fun v => match v with VStr s => Some s | _ => None end) l.

(** [", ".join(v)] *)
Definition join_value (sep : string) (v : value) : outcome string :=
  match py_iter v with
  | Some l => match as_strs l with
              | Some ss => Return (join sep ss)
              | None => Raise TypeError
              end
  | None => Raise TypeError
  end.

(** Lines 47-55. *)
Definition build_context (project_details : doc) : outcome plan_context :=
  match py_len (dict_get project_details "team" (VList [])) with
  | None => Raise TypeError
  | Some team_size =>
      match join_value ", " (dict_get project_details "tags" (VList [])) with
      | Raise e => Raise e
      | Return tags =>
          Return {| ctx_title := dict_get project_details "title" (VStr "Untitled Project");
                    ctx_description := dict_get project_details "description" (VStr "");
                    ctx_status := dict_get project_details "status" (VStr "planning");
                    ctx_team_size := team_size;
                    ctx_progress := dict_get project_details "progress" (VInt 0);
                    ctx_tags := tags;
                    ctx_deadline := dict_get project_details "deadline" (VStr "Not specified") |}
      end
  end.

(** The repair step (lines 131-137 with ['{'] and ['}'], lines 249-254
    with ['['] and [']']). *)
Definition clean_response (opening closing response : string) : string :=
  let cleaned_response := strip response in
  if negb (startswith cleaned_response opening) then
    let start := find cleaned_response opening in
    let end_ := rfind cleaned_response closing in
    if negb (start =? -1)%Z && negb (end_ =? -1)%Z
    then slice cleaned_response start (end_ + 1)
    else cleaned_response
  else cleaned_response.

Definition required_fields : list string :=
  ["project_summary"; "key_features_deliverables"; "major_milestones"; "high_level_tasks"].

(** [[field for field in fields if field not in plan_json]] (line 154);
    [None] is the [TypeError] of [in] on a value without membership. *)
Fixpoint missing_fields (plan_json : value) (fields : list string) : option (list string) :=
  match fields with
  | [] => Some []
  | field :: rest =>
      match py_contains plan_json field with
      | None => None
      | Some present =>
          match missing_fields plan_json rest with
          | None => None
          | Some missing => Some (if present then missing else field :: missing)
          end
      end
  end.

(** Lines 146-156. *)
Definition validate_required_fields (plan_json : value) : outcome unit :=
  match missing_fields plan_json required_fields with
  | None => Raise TypeError
  | Some [] => Return tt
  | Some missing =>
      Raise (ValueError ("Missing required fields in plan: " ++ join ", " missing))
  end.

Section Agent.
Context {libs : Libraries}.

(** Lines 126-144.  The response of the chain is a [str]. *)
Definition parse_plan_response (response : string) : outcome value :=
  if negb (py_truthy (VStr response)) then
    Raise (ValueError "Invalid response format. Expected string, got <class 'str'>")
  else
    let cleaned_response := clean_response "{" "}" response in
    match json_loads cleaned_response with
    | Some plan_json => Return plan_json
    | None =>
        Raise (ValueError ("Invalid JSON response from LLM: " ++ json_error cleaned_response))
    end.

(** The failure object of both pipelines. *)
Definition error_result (e : exn) (message : string) : doc :=
  <["error" := VStr (py_str e)]> (<["message" := VStr message]> ∅).

(** The body of the inner [try] of [generate_project_plan] (lines 110-163). *)
Definition generate_body (project_details : doc) (context : plan_context)
    (llm : chain) (now : Z) : M doc :=
  response <- lift (run_result (call_with_retry (llm (PlanPrompt context)))) ;;
  plan_json <- lift (parse_plan_response response) ;;
  do lift (validate_required_fields plan_json) ;;
  project_id <- lift (match project_details !! "_id" with
                      | Some i => Return (str_value i)
                      | None => Raise (KeyError "_id")
                      end) ;;
  AppMongoDB.store_project_plan project_id plan_json now.

(** [PlannerAgent.generate_project_plan] (lines 43-177).  [now] is the
    clock reading taken by [store_project_plan]. *)
Definition generate_project_plan (project_details : doc) (llm : chain) (now : Z) : M doc :=
  try_except
    (context <- lift (build_context project_details) ;;
     try_except
       (generate_body project_details context llm now)
       (fun e => ret (error_result e "Failed to generate project plan.")))
    (fun e => ret (error_result e "Failed to set up project plan generation.")).

(** The body of the [try] of [refine_project_tasks] (lines 182-278).
    [t_created] and [t_updated] are the clock readings for a plan made in
    memory, [t_refined] the one taken after parsing. *)
Definition refine_body (project_id : string) (tasks : value) (llm : chain)
    (t_created t_updated t_refined : Z) : M doc :=
  st <- get_db ;;
  match st with
  | None => raise AttributeError
  | Some db =>
      let fresh_plan : doc :=
        <["updated_at" := VTime t_updated]>
          (<["created_at" := VTime t_created]>
             (<["high_level_tasks" := tasks]>
                (<["project_id" := VStr project_id]> ∅))) in
      let project_plan :=
        match find_one_plan db project_id with
        | Some found => if py_truthy (VDict found) then found else fresh_plan
        | None => fresh_plan
        end in
      if negb (json_serializable tasks) then raise TypeError
      else
          response <- lift (run_result (call_with_retry (llm (RefinePrompt tasks)))) ;;
          let response := clean_response "[" "]" response in
          match json_loads response with
          | None =>
              raise (ValueError ("Invalid JSON response for refined tasks: "
                                 ++ json_error response))
          | Some refined_tasks =>
              let project_plan := <["high_level_tasks" := refined_tasks]> project_plan in
              let project_plan := <["updated_at" := VTime t_refined]> project_plan in
              do put_db (update_one_plan db project_id project_plan) ;;
              ret (<["original_tasks" := tasks]>
                     (<["refined_tasks" := refined_tasks]>
                        (<["project_id" := VStr project_id]> ∅)))
          end
  end.

(** [PlannerAgent.refine_project_tasks] (lines 179-285) *)
Definition refine_project_tasks (project_id : string) (tasks : value) (llm : chain)
    (t_created t_updated t_refined : Z) : M doc :=
  try_except
    (refine_body project_id tasks llm t_created t_updated t_refined)
    (fun e => ret (error_result e "Failed to refine project tasks.")).

(** [PlannerAgent.__init__] (lines 18-41).  The three arguments are the
    values of the environment variables, [None] for an unset one; [client]
    is the outcome of building the LLM client. *)
Definition __init__ (api_key endpoint deployment : option string) (client : outcome unit)
  : outcome unit :=
  let set (v : option string) := match v with Some s => negb (s =? "") | None => false end in
  if negb (set api_key && set endpoint && set deployment) then
    Raise (ValueError ("Missing required Azure OpenAI configuration. Check "
                       ++ "AZURE_OPENAI_API_KEY, AZURE_API_ENDPOINT, and "
                       ++ "AZURE_DEPLOYMENT_NAME environment variables."))
  else
    match client with
    | Return _ => Return tt
    | Raise _ =>
        Raise (ValueError ("Failed to initialize Azure OpenAI. Please check if the "
                           ++ "deployment '" ++ default "" deployment
                           ++ "' exists. Common deployment names are: "
                           ++ "gpt-35-turbo, gpt-35-turbo-16k, gpt-4-32k"))
    end.

(** [PlannerAgent._store_project_plan] (lines 287-303).  In
    [{"project_id": project_id, **plan}] a [project_id] of the plan wins. *)
Definition _store_project_plan (project_id : string) (plan : doc) : M unit :=
  try_except
    (let plan_with_id : doc := plan ∪ {["project_id" := VStr project_id]} in
     st <- get_db ;;
     match st with
     | None => raise AttributeError
     | Some db => put_db (update_one_plan db project_id plan_with_id)
     end)
    (fun e => raise e).

(** [PlannerAgent._update_project_plan] (lines 305-323) *)
Definition _update_project_plan (project_id : string) (plan : doc) : M unit :=
  try_except
    (let plan_with_id : doc := plan ∪ {["project_id" := VStr project_id]} in
     st <- get_db ;;
     match st with
     | None => raise AttributeError
     | Some db =>
         do put_db {| projects := projects db;
                      project_plans := update_rows project_id plan_with_id (project_plans db) |} ;;
         if (matched_count project_id (project_plans db) =? 0)%nat then
           raise (ValueError ("Project plan not found with ID: " ++ project_id))
         else ret tt
     end)
    (fun e => raise e).

End Agent.
End Planner.

(** ** The plan route, [src/planner-agent-/app/api/routes.py] *)

Module Routes.
Section Handlers.
Context {libs : Libraries}.

(** The context built when the project record is found (lines 147-157). *)
Definition project_context_of (project_id : string) (project : doc) : doc :=
  <["_id" := VStr project_id]>
    (<["title" := dict_get project "title" (VStr "Untitled Project")]>
    (<["description" := dict_get project "description" (VStr "Project details not available")]>
    (<["status" := dict_get project "status" (VStr "planning")]>
    (<["tags" := dict_get project "tags" (VList [])]>
    (<["team" := dict_get project "team" (VList [])]>
    (<["deadline" := dict_get project "deadline" VNone]>
    (<["resources" := dict_get project "resources" (VList [])]>
    (<["progress" := dict_get project "progress" (VInt 0)]> ∅)))))))).

(** The context built when there is no project record (lines 157-165). *)
Definition placeholder_context (project_id : string) : doc :=
  <["_id" := VStr project_id]>
    (<["title" := VStr "Untitled Project"]>
    (<["description" := VStr "Project details to be determined"]>
    (<["status" := VStr "planning"]>
    (<["tags" := VList []]>
    (<["team" := VList []]>
    (<["progress" := VInt 0]> ∅)))))).

(** Lines 179-184. *)
Definition minimum_plan (plan : doc) : doc :=
  <["project_summary" := dict_get plan "project_summary" (VStr "Project summary to be determined")]>
    (<["key_features_deliverables" := dict_get plan "key_features_deliverables" (VList [])]>
    (<["major_milestones" := dict_get plan "major_milestones" (VList [])]>
    (<["high_level_tasks" := dict_get plan "high_level_tasks" (VList [])]> ∅))).

(** [except HTTPException: raise] and
    [except Exception as e: raise HTTPException(500, detail=str(e))]. *)
Definition reraise_http {A} (e : exn) : M A :=
  match e with
  | HTTPException _ _ => raise e
  | _ => raise (HTTPException 500 (VStr (py_str e)))
  end.

(** [generate_plan_for_existing_project] (lines 118-196), the handler of
    [GET /projects/{project_id}/plan].  [planner] is
    [planner.generate_project_plan], injected into the handler; the planner
    module of this copy of the service is not among the sources, the one of
    [src/app/core/planner.py] is an instance.  [t_store] is the clock
    reading of the handler's own write. *)
Definition generate_plan_for_existing_project (planner : doc -> M doc)
    (project_id : string) (t_store : Z) : M doc :=
  try_except
    (st <- get_db ;;
     match st with
     | None => raise db_not_initialized
     | Some db =>
         match ObjectId project_id with
         | None => raise (HTTPException 400 (VStr "Invalid project ID format"))
         | Some obj_id =>
             let generate : M doc :=
               let project_context :=
                 match find_one_project db obj_id with
                 | Some project =>
                     if py_truthy (VDict project)
                     then project_context_of project_id project
                     else placeholder_context project_id
                 | None => placeholder_context project_id
                 end in
               plan <- planner project_context ;;
               if bool_decide (is_Some (plan !! "error")) then
                 raise (HTTPException 500
                          (dict_get plan "message" (VStr "Failed to generate plan")))
               else
                 let plan := minimum_plan plan in
                 AgentMongoDB.store_project_plan project_id (VDict plan) t_store in
             match find_one_plan db project_id with
             | Some existing_plan =>
                 if py_truthy (VDict existing_plan) then ret (delete "_id" existing_plan)
                 else generate
             | None => generate
             end
         end
     end)
    reraise_http.

(** The status line of the response: an [HTTPException] carries its own
    code, any other exception leaving a handler is a server error. *)
Definition status_of {A} (r : outcome A) : Z :=
  match r with
  | Return _ => 200
  | Raise (HTTPException code _) => code
  | Raise _ => 500
  end.

(** [except Exception as e: raise HTTPException(500, detail=str(e))],
    the only handler of [create_project] and [list_projects]. *)
Definition wrap_500 {A} (e : exn) : M A :=
  raise (HTTPException 500 (VStr (py_str e))).

(** [create_project] (lines 17-31), the handler of [POST /projects].
    [project_data] is [project.dict(exclude_unset=True)]. *)
Definition create_project (project_data : doc) (new_id : string) (now : Z) : M doc :=
  try_except
    (created_project <- AgentMongoDB.create_project project_data new_id now ;;
     match created_project !! "_id" with
     | Some _ => ret created_project
     | None => raise (KeyError "_id")
     end)
    wrap_500.

(** [get_project_description] (lines 33-69), the handler of
    [GET /projects/{project_id}/description]. *)
Definition get_project_description (project_id : string) : M doc :=
  try_except
    (st <- get_db ;;
     match st with
     | None => raise db_not_initialized
     | Some db =>
         match ObjectId project_id with
         | None => raise (HTTPException 400 (VStr "Invalid project ID format"))
         | Some obj_id =>
             let project := project_title_description <$> find_one_project db obj_id in
             match project with
             | Some project =>
                 if py_truthy (VDict project) then
                   ret (<["id" := VStr (str_value (dict_get project "_id" VNone))]>
                          (<["title" := dict_get project "title" (VStr "Untitled Project")]>
                          (<["description" :=
                               dict_get project "description" (VStr "No description available")]>
                             ∅)))
                 else raise (HTTPException 404 (VStr "Project not found"))
             | None => raise (HTTPException 404 (VStr "Project not found"))
             end
         end
     end)
    reraise_http.

(** The body of the loop of [list_projects] (lines 82-95). *)
Definition list_entry (db : database) (project : doc) : doc :=
  let project_id := str_value (dict_get project "_id" VNone) in
  let project := <["_id" := VStr project_id]> project in
  let has_plan := bool_decide (is_Some (find_one_plan db project_id)) in
  <["has_plan" := VBool has_plan]> project.

(** [list_projects] (lines 71-101), the handler of [GET /projects]. *)
Definition list_projects : M (list doc) :=
  try_except
    (st <- get_db ;;
     match st with
     | None => raise db_not_initialized
     | Some db => ret (list_entry db <$> find_projects db)
     end)
    wrap_500.

(** [get_planner_agent] (lines 103-116); the arguments are those of
    [PlannerAgent.__init__]. *)
Definition get_planner_agent (api_key endpoint deployment : option string)
    (client : outcome unit) : outcome unit :=
  match Planner.__init__ api_key endpoint deployment client with
  | Return agent => Return agent
  | Raise (ValueError m) => Raise (HTTPException 500 (VStr (py_str (ValueError m))))
  | Raise _ => Raise (HTTPException 500 (VStr "Failed to initialize OpenAI configuration"))
  end.

(** The task made up when the project has no plan to refine (lines 237-243). *)
Definition initial_tasks (project : doc) : value :=
  VList [VDict (<["task_name" := VStr "Project Setup"]>
                  (<["description" :=
                       VStr ("Initial setup for "
                             ++ str_value (dict_get project "title" (VStr "the project")))]>
                  (<["dependencies" := VList []]> ∅)))].

(** [refine_project_tasks] (lines 200-261), the handler of
    [POST /refine-tasks/{project_id}].  [planner] is
    [planner.refine_project_tasks], injected as in the plan route. *)
Definition refine_project_tasks (planner : string -> value -> M doc) (project_id : string)
  : M doc :=
  try_except
    (st <- get_db ;;
     match st with
     | None => raise db_not_initialized
     | Some db =>
         match ObjectId project_id with
         | None => raise (HTTPException 400 (VStr "Invalid project ID format"))
         | Some obj_id =>
             let missing : M doc :=
               raise (HTTPException 404
                        (VStr ("No project found with ID: " ++ project_id
                               ++ ". Please create a project first."))) in
             match find_one_project db obj_id with
             | None => missing
             | Some project =>
                 if negb (py_truthy (VDict project)) then missing
                 else
                   let tasks_to_refine :=
                     match find_one_plan db project_id with
                     | Some existing_plan =>
                         if py_truthy (VDict existing_plan) then
                           match existing_plan !! "high_level_tasks" with
                           | Some tasks => tasks
                           | None => initial_tasks project
                           end
                         else initial_tasks project
                     | None => initial_tasks project
                     end in
                   refined_plan <- planner project_id tasks_to_refine ;;
                   if bool_decide (is_Some (refined_plan !! "error")) then
                     raise (HTTPException 500
                              (dict_get refined_plan "message" (VStr "Failed to refine tasks")))
                   else ret refined_plan
             end
         end
     end)
    reraise_http.

(** The handlers shared by [update_project_details] and [delete_project]:
    [except InvalidId] gives 400, [except HTTPException: raise], and any
    other exception gives 500. *)
Definition invalid_id_400 {A} (e : exn) : M A :=
  match e with
  | InvalidId _ => raise (HTTPException 400 (VStr "Invalid project ID format"))
  | HTTPException _ _ => raise e
  | _ => raise (HTTPException 500 (VStr (py_str e)))
  end.

(** [update_project_details] (lines 264-293), the handler of
    [PATCH /projects/{project_id}].  [update_data] is
    [update.dict(exclude_unset=True)]; [now] is the clock reading of the
    gateway. *)
Definition update_project_details (project_id : string) (update_data : doc) (now : Z)
  : M value :=
  try_except
    (if negb (py_truthy (VDict update_data)) then
       raise (HTTPException 400 (VStr "No update data provided"))
     else
       updated_project <- AgentMongoDB.update_project project_id update_data now ;;
       if negb (py_truthy updated_project) then
         raise (HTTPException 404 (VStr "Project not found"))
       else ret updated_project)
    invalid_id_400.

(** [delete_project] (lines 296-317), the handler of
    [DELETE /projects/{project_id}]. *)
Definition delete_project (project_id : string) (now : Z) : M value :=
  try_except
    (deleted_project <- AgentMongoDB.soft_delete_project project_id now ;;
     if negb (py_truthy deleted_project) then
       raise (HTTPException 404 (VStr "Project not found"))
     else ret deleted_project)
    invalid_id_400.

End Handlers.
End Routes.

(** ** A reference instance of the libraries *)

(** Concrete library behaviour, used to run the service on examples.
    - Identifiers: a [str] is accepted when it is 24 hexadecimal digits,
      and is rendered in lower case.
    - [json.loads] on ASCII text: the JSON grammar with Python's
      extensions [NaN], [Infinity] and [-Infinity]; an integer literal is
      an [int], any other number is kept by its literal; a repeated key
      keeps its last value.  A [\u] escape above code point 127 is not
      covered by the ASCII model and is rejected here.
    - Text that a library or the interpreter words ([str] of its
      exceptions, [repr] of a value, the diagnostic of a decode error) is
      represented by a tag in angle brackets. *)
Module Reference.

Definition is_digit (c : ascii) : bool :=
  let n := nat_of_ascii c in ((48 <=? n)%nat && (n <=? 57)%nat).

Definition is_hex (c : ascii) : bool :=
  let n := nat_of_ascii c in
  is_digit c || ((65 <=? n)%nat && (n <=? 70)%nat) || ((97 <=? n)%nat && (n <=? 102)%nat).

Definition to_lower (c : ascii) : ascii :=
  let n := nat_of_ascii c in
  if ((65 <=? n)%nat && (n <=? 90)%nat) then ascii_of_nat (n + 32) else c.

Fixpoint string_forall (p : ascii -> bool) (s : string) : bool :=
  match s with
  | "" => true
  | String c r => p c && string_forall p r
  end.

Fixpoint string_map (f : ascii -> ascii) (s : string) : string :=
  match s with
  | "" => ""
  | String c r => String (f c) (string_map f r)
  end.

Definition ObjectId (s : string) : option string :=
  if (String.length s =? 24)%nat && string_forall is_hex s
  then Some (string_map to_lower s) else None.

(** *** The JSON reader *)

Definition is_json_ws (c : ascii) : bool :=
  let n := nat_of_ascii c in
  (n =? 32)%nat || (n =? 9)%nat || (n =? 10)%nat || (n =? 13)%nat.

Fixpoint skip_ws (s : string) : string :=
  match s with
  | String c r => if is_json_ws c then skip_ws r else s
  | "" => ""
  end.

(** The longest prefix of digits, and the rest. *)
Fixpoint take_digits (s : string) : string * string :=
  match s with
  | String c r => if is_digit c then let '(d, r') := take_digits r in (String c d, r')
                  else ("", s)
  | "" => ("", "")
  end.

Definition digit_value (c : ascii) : Z := (Z.of_nat (nat_of_ascii c) - 48)%Z.

Fixpoint decimal_value (acc : Z) (s : string) : Z :=
  match s with
  | "" => acc
  | String c r => decimal_value (10 * acc + digit_value c)%Z r
  end.

(** An optional minus sign and either a single zero or digits that do
    not start with a zero: the sign, the digits, the rest. *)
Definition scan_int (s : string) : option (bool * string * string) :=
  let '(neg, s1) := match s with
                    | String "-" r => (true, r)
                    | _ => (false, s)
                    end in
  match s1 with
  | String "0" r => Some (neg, "0", r)
  | String c _ => if is_digit c then let '(d, r) := take_digits s1 in Some (neg, d, r)
                  else None
  | "" => None
  end.

(** An optional fraction: a dot and at least one digit. *)
Definition scan_frac (s : string) : string * string :=
  match s with
  | String "." r =>
      match take_digits r with
      | ("", _) => ("", s)
      | (d, r') => (String "." d, r')
      end
  | _ => ("", s)
  end.

(** An optional exponent: e or E, an optional sign, at least one digit. *)
Definition scan_exp (s : string) : string * string :=
  match s with
  | String e r =>
      if (e =? "e")%char || (e =? "E")%char then
        let '(sign, r1) := match r with
                           | String "-" r1 => ("-", r1)
                           | String "+" r1 => ("+", r1)
                           | _ => ("", r)
                           end in
        match take_digits r1 with
        | ("", _) => ("", s)
        | (d, r') => (String e (sign ++ d), r')
        end
      else ("", s)
  | "" => ("", s)
  end.

Definition scan_number (s : string) : option (value * string) :=
  match scan_int s with
  | None => None
  | Some (neg, d, r) =>
      let '(frac, r1) := scan_frac r in
      let '(exp, r2) := scan_exp r1 in
      match frac, exp with
      | "", "" => Some (VInt (if neg then (- decimal_value 0 d)%Z else decimal_value 0 d), r2)
      | _, _ => Some (VFloat ((if neg then "-" else "") ++ d ++ frac ++ exp), r2)
      end
  end.

Definition hex_value (c : ascii) : option Z :=
  let n := Z.of_nat (nat_of_ascii c) in
  if is_digit c then Some (n - 48)%Z
  else if (65 <=? n)%Z && (n <=? 70)%Z then Some (n - 55)%Z
  else if (97 <=? n)%Z && (n <=? 102)%Z then Some (n - 87)%Z
  else None.

Definition hex4 (a b c d : ascii) : option ascii :=
  match hex_value a, hex_value b, hex_value c, hex_value d with
  | Some a, Some b, Some c, Some d =>
      let n := (((a * 16 + b) * 16 + c) * 16 + d)%Z in
      if (n <? 128)%Z then Some (ascii_of_nat (Z.to_nat n)) else None
  | _, _, _, _ => None
  end.

Definition quote : ascii := "034"%char.
Definition backslash : ascii := "092"%char.

(** The character an escape letter stands for. *)
Definition unescape (e : ascii) : option ascii :=
  if (e =? quote)%char then Some quote
  else if (e =? backslash)%char then Some backslash
  else if (e =? "/")%char then Some "/"%char
  else if (e =? "b")%char then Some "008"%char
  else if (e =? "f")%char then Some "012"%char
  else if (e =? "n")%char then Some "010"%char
  else if (e =? "r")%char then Some "013"%char
  else if (e =? "t")%char then Some "009"%char
  else None.

(** The content of a string literal up to its closing quote; the opening
    quote is already consumed. *)
Fixpoint scanstring (s : string) : option (string * string) :=
  let cons (x : option ascii) (rest : option (string * string)) :=
    match x, rest with
    | Some x, Some (t, r) => Some (String x t, r)
    | _, _ => None
    end in
  match s with
  | "" => None
  | String c r =>
      if (c =? quote)%char then Some ("", r)
      else if (c =? backslash)%char then
        match r with
        | String "u" (String a (String b (String c (String d r')))) =>
            cons (hex4 a b c d) (scanstring r')
        | String e r' => cons (unescape e) (scanstring r')
        | "" => None
        end
      else if (nat_of_ascii c <? 32)%nat then None
      else cons (Some c) (scanstring r)
  end.

(** [fuel] bounds the number of nested calls; each call consumes input. *)
Fixpoint scan_once (fuel : nat) (s : string) : option (value * string) :=
  match fuel with
  | O => None
  | S fuel =>
      match s with
      | "" => None
      | String c r =>
          if (c =? quote)%char then
            match scanstring r with
            | Some (t, r') => Some (VStr t, r')
            | None => None
            end
          else if (c =? "{")%char then
            match skip_ws r with
            | String "}" r' => Some (VDict ∅, r')
            | r' => scan_members fuel r' ∅
            end
          else if (c =? "[")%char then
            match skip_ws r with
            | String "]" r' => Some (VList [], r')
            | r' => scan_items fuel r' []
            end
          else if String.prefix "null" s then Some (VNone, String.substring 4 (String.length s) s)
          else if String.prefix "true" s then Some (VBool true, String.substring 4 (String.length s) s)
          else if String.prefix "false" s then Some (VBool false, String.substring 5 (String.length s) s)
          else
            match scan_number s with
            | Some res => Some res
            | None =>
                if String.prefix "NaN" s
                then Some (VFloat "NaN", String.substring 3 (String.length s) s)
                else if String.prefix "Infinity" s
                then Some (VFloat "Infinity", String.substring 8 (String.length s) s)
                else if String.prefix "-Infinity" s
                then Some (VFloat "-Infinity", String.substring 9 (String.length s) s)
                else None
            end
      end
  end
with scan_items (fuel : nat) (s : string) (acc : list value) : option (value * string) :=
  match fuel with
  | O => None
  | S fuel =>
      match scan_once fuel s with
      | None => None
      | Some (v, r) =>
          match skip_ws r with
          | String "]" r' => Some (VList (rev (v :: acc)), r')
          | String "," r' => scan_items fuel (skip_ws r') (v :: acc)
          | _ => None
          end
      end
  end
with scan_members (fuel : nat) (s : string) (acc : doc) : option (value * string) :=
  match fuel with
  | O => None
  | S fuel =>
      match s with
      | String c r =>
          if (c =? quote)%char then
            match scanstring r with
            | None => None
            | Some (key, r1) =>
                match skip_ws r1 with
                | String ":" r2 =>
                    match scan_once fuel (skip_ws r2) with
                    | None => None
                    | Some (v, r3) =>
                        match skip_ws r3 with
                        | String "}" r4 => Some (VDict (<[key := v]> acc), r4)
                        | String "," r4 => scan_members fuel (skip_ws r4) (<[key := v]> acc)
                        | _ => None
                        end
                    end
                | _ => None
                end
            end
          else None
      | "" => None
      end
  end.

Definition json_loads (s : string) : option value :=
  match scan_once (2 * String.length s + 2) (skip_ws s) with
  | Some (v, r) => match skip_ws r with
                   | "" => Some v
                   | _ => None
                   end
  | None => None
  end.

(** Whether [json.dumps] accepts the value: a [datetime] or an
    [ObjectId] anywhere inside it is rejected. *)
Fixpoint json_serializable (v : value) : bool :=
  match v with
  | VTime _ | VOid _ => false
  | VList l => forallb json_serializable l
  | VDict d => map_fold (fun _ x acc => json_serializable x && acc) true d
  | _ => true
  end.

Definition class_tag (e : exn) : string :=
  match e with
  | InvalidId _ => "<InvalidId>"
  | HTTPException _ _ => "<HTTPException>"
  | TypeError => "<TypeError>"
  | AttributeError => "<AttributeError>"
  | RetryError _ => "<RetryError>"
  | _ => "<Exception>"
  end.

Definition libraries : Libraries :=
  Build_Libraries ObjectId json_loads (fun _ => "<diagnostic>") json_serializable
                  class_tag (fun _ => "<repr>").

(** Python source text quotes with apostrophes as well: [py s] is [s]
    with every apostrophe read as a double quote. *)
Definition py (s : string) : string :=
  string_map (fun c => if (c =? "'")%char then quote else c) s.

End Reference.

(** ** Notions used in the statements *)

(** An empty result: [None] or an empty dictionary. *)
Definition empty_result (r : outcome value) : Prop :=
  r = Return VNone \/ r = Return (VDict ∅).

(** The [tasks] field of a stored project, when there is one, can be
    iterated over, as [_serialize_project] does.  Projects are created from
    a request model whose [tasks] is a list. *)
Definition tasks_iterable (d : doc) : Prop :=
  match d !! "tasks" with
  | Some tasks => is_Some (py_iter tasks)
  | None => True
  end.

(** The store with the project [oid] set to [d]. *)
Definition with_project (db : database) (oid : string) (d : doc) : database :=
  {| projects := <[oid := d]> (projects db); project_plans := project_plans db |}.


(** The plan as [store_project_plan] leaves it: [updated_at] set to the
    clock reading, [created_at] set to the same reading when the plan does
    not carry one. *)
Definition stamped (plan : doc) (now : Z) : doc :=
  let plan := <["updated_at" := VTime now]> plan in
  if negb (bool_decide (is_Some (plan !! "created_at")))
  then <["created_at" := dict_get plan "updated_at" VNone]> plan
  else plan.





(** The success object of [refine_project_tasks] (lines 270-274). *)
Definition refine_result (project_id : string) (tasks refined_tasks : value) : doc :=
  <["original_tasks" := tasks]>
    (<["refined_tasks" := refined_tasks]> (<["project_id" := VStr project_id]> ∅)).


(** ** Example data *)

Definition empty_database : database := {| projects := ∅; project_plans := [] |}.

Definition example_oid : string := "0123456789abcdef01234567".

Definition example_project : doc :=
  <["title" := VStr "Website Redesign"]>
    (<["status" := VStr "planning"]>
    (<["tasks" := VList [VOid "aaaaaaaaaaaaaaaaaaaaaaaa"; VStr "t-2"]]>
    (<["updated_at" := VTime 1]> (<["created_at" := VTime 1]> ∅)))).


Definition example_plan : doc :=
  <["project_summary" := VStr "A redesign of the site"]>
    (<["key_features_deliverables" := VList []]>
    (<["major_milestones" := VList []]>
    (<["high_level_tasks" := VList []]> ∅))).

Definition complete_plan_of_empty_lists : doc :=
  <["project_summary" := VStr ""]>
    (<["key_features_deliverables" := VList []]>
    (<["major_milestones" := VList []]>
    (<["high_level_tasks" := VList []]> ∅))).


Definition complete_response : string :=
  Reference.py ("{'project_summary': 'A site', 'key_features_deliverables': ['Home page'], "
                ++ "'major_milestones': [], 'high_level_tasks': []}").




(** ** Notions used in the further statements *)

(** The number of plan rows a project id has. *)
Definition rows_of (pid : string) (rows : list doc) : nat :=
  length (List.filter (plan_matches pid) rows).

(** An identifier as the gateway returns it: a string that spells an
    [ObjectId] is stored as one and comes back as its rendering, anything
    else comes back as it is. *)
Definition render_id `{Libraries} (v : value) : value := ObjectId_to_str (to_ObjectId v).

(** The [tasks] field of a request is absent or a list. *)
Definition tasks_listed (d : doc) : Prop :=
  match d !! "tasks" with
  | Some tasks => exists l, tasks = VList l
  | None => True
  end.

(** The answer of the description route for the project [oid] stored as
    [d] (lines 59-63 of [routes.py]). *)
Definition description_of (oid : string) (d : doc) : doc :=
  <["id" := VStr oid]>
    (<["title" := dict_get d "title" (VStr "Untitled Project")]>
    (<["description" := dict_get d "description" (VStr "No description available")]> ∅)).

(** An entry of the project list for the project [oid] stored as [d]. *)
Definition listed (db : database) (oid : string) (d : doc) : doc :=
  <["has_plan" := VBool (bool_decide (is_Some (find_one_plan db oid)))]>
    (<["_id" := VStr oid]> d).

(** An environment variable is set to a non-empty value. *)
Definition configured (v : option string) : Prop :=
  exists s, v = Some s /\ s <> "".

(** What a route makes of the result of the refiner it calls (lines 246-261
    of [routes.py]). *)
Definition refine_answer `{Libraries} (r : outcome doc * store) : outcome doc * store :=
  match r with
  | (Return refined_plan, st) =>
      if bool_decide (is_Some (refined_plan !! "error")) then
        (Raise (HTTPException 500
                  (dict_get refined_plan "message" (VStr "Failed to refine tasks"))), st)
      else (Return refined_plan, st)
  | (Raise (HTTPException code detail), st) => (Raise (HTTPException code detail), st)
  | (Raise e, st) => (Raise (HTTPException 500 (VStr (py_str e))), st)
  end.

(** Attempt [k] of the connection loop fails: at the ping or at the
    document counts. *)
Definition attempt_failed (ping count : nat -> outcome unit) (k : nat) : Prop :=
  ping k <> Return tt \/ count k <> Return tt.

(** ** Further example data *)

Definition example_request : doc :=
  <["title" := VStr "Website Redesign"]>
    (<["description" := VStr "A new site"]>
    (<["user" := VStr "bbbbbbbbbbbbbbbbbbbbbbbb"]>
    (<["tasks" := VList [VStr "aaaaaaaaaaaaaaaaaaaaaaaa"; VStr "t-2"]]> ∅))).

Definition untitled_request : doc :=
  <["description" := VStr "A new site"]> (<["user" := VStr "u-1"]> ∅).

(** The example id in capitals: accepted as an [ObjectId], rendered in
    lower case. *)
Definition example_oid_capitals : string := "0123456789ABCDEF01234567".



(** * Facts *)

Ltac run := unfold try_except, bind, ret, raise, lift, get_db, put_db.

Lemma truthy_insert (k : string) (v : value) (d : doc) :
  py_truthy (VDict (<[k := v]> d)) = true.
Proof.
  simpl. apply negb_true_iff, bool_decide_eq_false, insert_non_empty.
Qed.

Lemma find_one_project_Some (db : database) (oid : string) (d : doc) :
  projects db !! oid = Some d ->
  find_one_project db oid = Some (<["_id" := VOid oid]> d).
Proof. intros E. unfold find_one_project. by rewrite E. Qed.

Lemma find_one_project_None (db : database) (oid : string) :
  projects db !! oid = None -> find_one_project db oid = None.
Proof. intros E. unfold find_one_project. by rewrite E. Qed.

(** ** The persistence gateway *)

Section GatewayFacts.
Context {libs : Libraries}.

Lemma app_get_project_invalid (st : database) (project_id : string) :
  ObjectId project_id = None ->
  AppMongoDB.get_project project_id (Some st) = (Raise (InvalidId project_id), Some st).
Proof. intros E. unfold AppMongoDB.get_project. run. by rewrite E. Qed.

Lemma agent_get_project_invalid (st : database) (project_id : string) :
  ObjectId project_id = None ->
  AgentMongoDB.get_project project_id (Some st) = (Raise (InvalidId project_id), Some st).
Proof. intros E. unfold AgentMongoDB.get_project. run. by rewrite E. Qed.

Lemma app_get_project_absent (st : database) (project_id oid : string) :
  ObjectId project_id = Some oid -> projects st !! oid = None ->
  AppMongoDB.get_project project_id (Some st) = (Return VNone, Some st).
Proof.
  intros E N. unfold AppMongoDB.get_project. run.
  by rewrite E, (find_one_project_None _ _ N).
Qed.

Lemma agent_get_project_absent (st : database) (project_id oid : string) :
  ObjectId project_id = Some oid -> projects st !! oid = None ->
  AgentMongoDB.get_project project_id (Some st) = (Return (VDict ∅), Some st).
Proof.
  intros E N. unfold AgentMongoDB.get_project. run.
  by rewrite E, (find_one_project_None _ _ N).
Qed.

Lemma get_project_present (st : database) (project_id oid : string) (d : doc) :
  ObjectId project_id = Some oid -> projects st !! oid = Some d ->
  AppMongoDB.get_project project_id (Some st)
    = (Return (VDict (<["_id" := VStr oid]> d)), Some st)
  /\ AgentMongoDB.get_project project_id (Some st)
    = (Return (VDict (<["_id" := VStr oid]> d)), Some st).
Proof.
  intros E P. unfold AppMongoDB.get_project, AgentMongoDB.get_project. run.
  rewrite E, (find_one_project_Some _ _ _ P), truthy_insert.
  unfold dict_get. rewrite lookup_insert_eq. simpl.
  by rewrite insert_insert_eq.
Qed.

Lemma get_project_not_connected (project_id : string) :
  AppMongoDB.get_project project_id None = (Raise db_not_initialized, None)
  /\ AgentMongoDB.get_project project_id None = (Raise db_not_initialized, None).
Proof. done. Qed.

End GatewayFacts.

Section GatewayClaims.
Context {libs : Libraries}.

(** C2, as amended.  [get_project] gives an empty result without raising
    when the id is well formed and no project has it: [None] in [src/app],
    an empty dictionary in [src/planner-agent-].  A malformed id is not
    turned into an empty result: bson's [InvalidId] is caught, logged and
    raised again to the caller.  Before the store is connected the call
    raises the "not initialized" error, and a stored project is returned
    with its id rendered as a string. *)
Theorem get_project_contract (st : store) (project_id : string) :
  match st with
  | None =>
      AppMongoDB.get_project project_id st = (Raise db_not_initialized, st)
      /\ AgentMongoDB.get_project project_id st = (Raise db_not_initialized, st)
  | Some db =>
      match ObjectId project_id with
      | None =>
          AppMongoDB.get_project project_id st = (Raise (InvalidId project_id), st)
          /\ AgentMongoDB.get_project project_id st = (Raise (InvalidId project_id), st)
      | Some oid =>
          match projects db !! oid with
          | None =>
              AppMongoDB.get_project project_id st = (Return VNone, st)
              /\ AgentMongoDB.get_project project_id st = (Return (VDict ∅), st)
              /\ empty_result (AppMongoDB.get_project project_id st).1
              /\ empty_result (AgentMongoDB.get_project project_id st).1
          | Some d =>
              AppMongoDB.get_project project_id st
              = (Return (VDict (<["_id" := VStr oid]> d)), st)
              /\ AgentMongoDB.get_project project_id st
                 = (Return (VDict (<["_id" := VStr oid]> d)), st)
          end
      end
  end.
Proof.
  destruct st as [db|]; [|done].
  destruct (ObjectId project_id) as [oid|] eqn:E.
  - destruct (projects db !! oid) as [d|] eqn:P.
    + by apply get_project_present.
    + rewrite (app_get_project_absent _ _ _ E P), (agent_get_project_absent _ _ _ E P).
      unfold empty_result. simpl. auto.
  - split; [by apply app_get_project_invalid | by apply agent_get_project_invalid].
Qed.

(** C10, as amended.  The two copies of [get_project] return the same
    result and leave the same store, except for a well-formed id that no
    project has: there [src/app] returns [None] and [src/planner-agent-]
    returns an empty dictionary, two values that are both false as a
    condition. *)
Theorem get_project_copies_agree_unless_absent (st : store) (project_id : string) :
  AppMongoDB.get_project project_id st = AgentMongoDB.get_project project_id st
  \/ (exists db oid,
        st = Some db /\ ObjectId project_id = Some oid /\ projects db !! oid = None
        /\ AppMongoDB.get_project project_id st = (Return VNone, st)
        /\ AgentMongoDB.get_project project_id st = (Return (VDict ∅), st)
        /\ AppMongoDB.get_project project_id st <> AgentMongoDB.get_project project_id st
        /\ py_truthy VNone = py_truthy (VDict ∅)).
Proof.
  destruct st as [db|]; [|by left].
  destruct (ObjectId project_id) as [oid|] eqn:E.
  - destruct (projects db !! oid) as [d|] eqn:P.
    + left. destruct (get_project_present _ _ _ _ E P) as [-> ->]. done.
    + right. exists db, oid.
      rewrite (app_get_project_absent _ _ _ E P), (agent_get_project_absent _ _ _ E P).
      repeat split; done.
  - left. by rewrite app_get_project_invalid, agent_get_project_invalid.
Qed.

End GatewayClaims.

(** Against C2 as stated: on the id "not-an-id", which is not a
    well-formed identifier, both copies raise [InvalidId]; the result is
    not an empty one. *)
Lemma get_project_invalid_id_raises :
  let st := Some empty_database in
  ObjectId (Libraries := Reference.libraries) "not-an-id" = None
  /\ (AppMongoDB.get_project (libs := Reference.libraries) "not-an-id" st).1
     = Raise (InvalidId "not-an-id")
  /\ ~ empty_result (AppMongoDB.get_project (libs := Reference.libraries) "not-an-id" st).1
  /\ ~ empty_result (AgentMongoDB.get_project (libs := Reference.libraries) "not-an-id" st).1.
Proof.
  repeat split; try reflexivity; intros [E|E]; vm_compute in E; discriminate E.
Qed.

(** Against C10 as stated: on a well-formed id and an empty store the two
    copies return different values. *)
Lemma get_project_copies_differ_when_absent :
  let st := Some empty_database in
  let project_id := "0123456789abcdef01234567" in
  AppMongoDB.get_project (libs := Reference.libraries) project_id st = (Return VNone, st)
  /\ AgentMongoDB.get_project (libs := Reference.libraries) project_id st = (Return (VDict ∅), st)
  /\ AppMongoDB.get_project (libs := Reference.libraries) project_id st
     <> AgentMongoDB.get_project (libs := Reference.libraries) project_id st.
Proof.
  repeat split; try reflexivity. intros E. vm_compute in E. discriminate E.
Qed.

Section SoftDelete.
Context {libs : Libraries}.




End SoftDelete.

Section SoftDeleteClaim.
Context {libs : Libraries}.

Lemma serialize_raises (project : doc) (e : exn) :
  AgentMongoDB._serialize_project project = Raise e -> e = TypeError \/ e = KeyError "_id".
Proof.
  unfold AgentMongoDB._serialize_project.
  destruct (negb _); [done|].
  destruct (project !! "_id"); [|intros [= <-]; by right].
  destruct (_ !! "tasks") as [tk|]; [|done].
  unfold AgentMongoDB.map_iter. destruct (py_iter tk); [done|].
  intros [= <-]. by left.
Qed.

Lemma soft_delete_project_existing (db : database) (project_id oid : string) (d : doc) (now : Z) :
  ObjectId project_id = Some oid ->
  projects db !! oid = Some d ->
  AgentMongoDB.soft_delete_project project_id now (Some db)
  = (match AgentMongoDB._serialize_project (<["_id" := VOid oid]> (AgentMongoDB.delete_update now ∪ d)) with
     | Return p => Return (VDict p)
     | Raise e => Raise (HTTPException 500 (VStr (py_str e)))
     end,
     Some (with_project db oid (AgentMongoDB.delete_update now ∪ d))).
Proof.
  intros E P. unfold AgentMongoDB.soft_delete_project, find_one_and_update_project. run.
  rewrite E, P, truthy_insert. fold (AgentMongoDB.delete_update now).
  destruct (AgentMongoDB._serialize_project _) as [p|e] eqn:S; [done|].
  by destruct (serialize_raises _ _ S) as [-> | ->].
Qed.

Lemma soft_delete_project_absent (db : database) (project_id oid : string) (now : Z) :
  ObjectId project_id = Some oid ->
  projects db !! oid = None ->
  AgentMongoDB.soft_delete_project project_id now (Some db) = (Return VNone, Some db).
Proof.
  intros E P. unfold AgentMongoDB.soft_delete_project, find_one_and_update_project. run.
  by rewrite E, P.
Qed.

Lemma update_project_absent (db : database) (project_id oid : string) (upd : doc) (now : Z) :
  ObjectId project_id = Some oid ->
  projects db !! oid = None ->
  AgentMongoDB.update_project project_id upd now (Some db) = (Return VNone, Some db).
Proof.
  intros E P. unfold AgentMongoDB.update_project, find_one_and_update_project. run.
  by rewrite E, P.
Qed.

Lemma soft_delete_as_update_invalid (st : store) (project_id : string) (upd : doc) (now : Z) :
  ObjectId project_id = None ->
  AgentMongoDB.soft_delete_project project_id now st
  = AgentMongoDB.update_project project_id upd now st
  /\ forall db, st = Some db ->
       AgentMongoDB.soft_delete_project project_id now st = (Raise (InvalidId project_id), st).
Proof.
  intros E. unfold AgentMongoDB.soft_delete_project, AgentMongoDB.update_project. run.
  destruct st as [db|]; [|split; [done|intros ? [=]]].
  rewrite E. split; [done|]. by intros ? _.
Qed.


End SoftDeleteClaim.


(** ** The retry wrapper *)

Section Retry.
Variable call : nat -> outcome string.

Lemma attempt_loop_calls (more a : nat) :
  (a <= run_calls (attempt_loop call more a) <= a + more)%nat.
Proof.
  revert a. induction more as [|more IH]; intros a; simpl.
  - destruct (call a) as [r|e]; simpl; [lia|].
    destruct (retry_if_exception_type e); simpl; lia.
  - destruct (call a) as [r|e]; simpl; [lia|].
    destruct (retry_if_exception_type e); simpl; [|lia].
    specialize (IH (S a)). lia.
Qed.


Lemma attempt_loop_last (more a : nat) :
  let run := attempt_loop call more a in
  match call (run_calls run) with
  | Return r => run_result run = Return r
  | Raise e =>
      if retry_if_exception_type e
      then run_result run = Raise (RetryError e) /\ run_calls run = (a + more)%nat
      else run_result run = Raise e
  end.
Proof.
  revert a. induction more as [|more IH]; intros a; simpl.
  - destruct (call a) as [r|e] eqn:C; simpl; [by rewrite C|].
    destruct (retry_if_exception_type e) eqn:R; simpl; rewrite C, R; [|done].
    split; [done|lia].
  - destruct (call a) as [r|e] eqn:C; simpl; [by rewrite C|].
    destruct (retry_if_exception_type e) eqn:R; simpl; [|by rewrite C, R].
    specialize (IH (S a)). simpl in IH.
    destruct (call (run_calls (attempt_loop call more (S a)))) as [r'|e']; [done|].
    destruct (retry_if_exception_type e'); [|done].
    destruct IH as [-> ->]. split; [done|lia].
Qed.

Lemma attempt_loop_sleeps (more a : nat) :
  let run := attempt_loop call more a in
  run_sleeps run = wait_exponential <$> seq a (run_calls run - a).
Proof.
  revert a. induction more as [|more IH]; intros a; simpl.
  - destruct (call a) as [r|e]; simpl; [by rewrite Nat.sub_diag|].
    destruct (retry_if_exception_type e); simpl; by rewrite Nat.sub_diag.
  - destruct (call a) as [r|e]; simpl; [by rewrite Nat.sub_diag|].
    destruct (retry_if_exception_type e); simpl; [|by rewrite Nat.sub_diag].
    rewrite IH. pose proof (attempt_loop_calls more (S a)) as B.
    replace (run_calls (attempt_loop call more (S a)) - a)%nat
      with (S (run_calls (attempt_loop call more (S a)) - S a)) by lia.
    done.
Qed.

(** The stop test of the decorator: a retryable failure ends the run
    exactly when the attempt number has reached the limit. *)
Lemma attempt_loop_stop (more a : nat) (e : exn) :
  let run := attempt_loop call more a in
  (a + more = max_attempt_number)%nat ->
  call (run_calls run) = Raise e -> retry_if_exception_type e = true ->
  stop_after_attempt (run_calls run) = true.
Proof.
  intros run Hm C R. pose proof (attempt_loop_last more a) as L. simpl in L.
  fold run in L. rewrite C, R in L. destruct L as [_ ->].
  unfold stop_after_attempt. apply Nat.leb_le. lia.
Qed.

End Retry.


Lemma wait_exponential_floor :
  wait_exponential 1 = 4%Z /\ wait_exponential 2 = 4%Z.
Proof. done. Qed.


(** ** Strings *)

Lemma append_nil (b : string) : "" ++ b = b.
Proof. reflexivity. Qed.

Lemma append_cons (x : ascii) (a b : string) : String x a ++ b = String x (a ++ b).
Proof. reflexivity. Qed.

Ltac app_simpl := rewrite ?append_cons, ?append_nil.


Lemma append_empty_r (a : string) : a ++ "" = a.
Proof. induction a as [|x a IH]; app_simpl; [done | by rewrite IH]. Qed.
















(** ** The repair step *)



(** ** The plan rows *)

Lemma plan_matches_singleton (pid : string) :
  plan_matches pid {["project_id" := VStr pid]} = true.
Proof.
  unfold plan_matches. rewrite lookup_singleton_eq. simpl. apply String.eqb_refl.
Qed.

Lemma plan_matches_union (pid : string) (upd d : doc) :
  upd !! "project_id" = None -> plan_matches pid (upd ∪ d) = plan_matches pid d.
Proof. intros N. unfold plan_matches. by rewrite lookup_union_r. Qed.

(** After an upsert whose fields do not include [project_id], the row
    found for the project carries the fields that were set. *)
Lemma find_upsert_rows (pid : string) (upd : doc) (rows : list doc) :
  upd !! "project_id" = None ->
  List.find (plan_matches pid) (upsert_rows pid upd rows)
  = Some (upd ∪ default {["project_id" := VStr pid]} (List.find (plan_matches pid) rows)).
Proof.
  intros N. induction rows as [|d rows IH]; simpl.
  - by rewrite plan_matches_union, plan_matches_singleton.
  - destruct (plan_matches pid d) eqn:E; simpl.
    + by rewrite plan_matches_union, E.
    + by rewrite E.
Qed.

(** The same when the fields set carry the project id itself. *)
Lemma find_upsert_rows_keyed (pid : string) (upd : doc) (rows : list doc) :
  upd !! "project_id" = Some (VStr pid) ->
  List.find (plan_matches pid) (upsert_rows pid upd rows)
  = Some (upd ∪ default {["project_id" := VStr pid]} (List.find (plan_matches pid) rows)).
Proof.
  intros N.
  assert (M : forall d, plan_matches pid (upd ∪ d) = true).
  { intros d. unfold plan_matches. erewrite lookup_union_Some_l by done.
    simpl. apply String.eqb_refl. }
  induction rows as [|d rows IH]; simpl.
  - by rewrite M.
  - destruct (plan_matches pid d) eqn:E; simpl.
    + by rewrite M.
    + by rewrite E.
Qed.

Lemma store_project_plan_connected (db : database) (pid : string) (plan : doc) (now : Z) :
  AppMongoDB.store_project_plan pid (VDict plan) now (Some db)
  = (Return (stamped plan now), Some (update_one_plan db pid (stamped plan now)))
  /\ AgentMongoDB.store_project_plan pid (VDict plan) now (Some db)
  = (Return (stamped plan now), Some (update_one_plan db pid (stamped plan now))).
Proof. done. Qed.

Lemma stamped_updated_at (plan : doc) (now : Z) :
  stamped plan now !! "updated_at" = Some (VTime now).
Proof.
  unfold stamped. destruct (negb _).
  - rewrite lookup_insert_ne by done. apply lookup_insert_eq.
  - apply lookup_insert_eq.
Qed.

Lemma stamped_created_at_fresh (plan : doc) (now : Z) :
  plan !! "created_at" = None -> stamped plan now !! "created_at" = Some (VTime now).
Proof.
  intros N. unfold stamped.
  rewrite (lookup_insert_ne _ "updated_at" "created_at") by done. rewrite N.
  rewrite bool_decide_eq_false_2 by (by intros [? [=]]). cbn [negb].
  unfold dict_get. by rewrite !lookup_insert_eq.
Qed.

Lemma stamped_other (plan : doc) (now : Z) (k : string) :
  k <> "updated_at" -> k <> "created_at" -> stamped plan now !! k = plan !! k.
Proof.
  intros N1 N2. unfold stamped. destruct (negb _); by rewrite !lookup_insert_ne.
Qed.

(** Whatever creation time the row had, a plan that does not carry one
    itself overwrites it. *)
Lemma store_project_plan_created_at (db : database) (pid : string) (plan : doc) (now : Z) :
  plan !! "created_at" = None -> plan !! "project_id" = None ->
  exists row,
    find_one_plan (update_one_plan db pid (stamped plan now)) pid = Some row
    /\ row !! "created_at" = Some (VTime now)
    /\ row !! "updated_at" = Some (VTime now).
Proof.
  intros Nc Np. unfold find_one_plan, update_one_plan. simpl.
  rewrite find_upsert_rows by (by rewrite stamped_other).
  eexists. split; [done|]. split.
  - erewrite lookup_union_Some_l; [done|]. by apply stamped_created_at_fresh.
  - erewrite lookup_union_Some_l; [done|]. by apply stamped_updated_at.
Qed.

(** C1, on the code.  The same plan is stored twice for one project id,
    at clock readings 100 and 200, in either copy of the gateway.  After
    the first call the row's [created_at] is 100; after the second it is
    200: the plan handed in carries no [created_at], so the call stamps it
    with its own reading and writes that over the stored creation time.
    [updated_at] is the reading of the call, and there is still one row. *)
Theorem store_project_plan_twice_created_at :
  exists (db1 db2 : database) (row1 row2 : doc),
    (AppMongoDB.store_project_plan "p1" (VDict example_plan) 100 (Some empty_database)).2
      = Some db1
    /\ (AgentMongoDB.store_project_plan "p1" (VDict example_plan) 100 (Some empty_database)).2
      = Some db1
    /\ find_one_plan db1 "p1" = Some row1
    /\ row1 !! "created_at" = Some (VTime 100)
    /\ (AppMongoDB.store_project_plan "p1" (VDict example_plan) 200 (Some db1)).2 = Some db2
    /\ (AgentMongoDB.store_project_plan "p1" (VDict example_plan) 200 (Some db1)).2 = Some db2
    /\ find_one_plan db2 "p1" = Some row2
    /\ row2 !! "created_at" = Some (VTime 200)
    /\ row2 !! "updated_at" = Some (VTime 200)
    /\ project_plans db2 = [row2].
Proof.
  do 4 eexists. repeat split; vm_compute; reflexivity.
Qed.

(** ** Field validation *)

Lemma missing_fields_dict (d : doc) (fields : list string) :
  Planner.missing_fields (VDict d) fields = Some (filter (fun f => d !! f = None) fields).
Proof.
  induction fields as [|f fields IH]; [done|].
  cbn [Planner.missing_fields py_contains]. rewrite IH.
  destruct (d !! f) as [v|] eqn:E.
  - rewrite bool_decide_eq_true_2 by eauto. by rewrite filter_cons_False by congruence.
  - rewrite bool_decide_eq_false_2 by (by intros [? [=]]). by rewrite filter_cons_True.
Qed.


(** C4.  On a parsed plan object the validation step looks at the
    presence of the four required fields and at nothing else.  When some
    are absent it fails with the message "Missing required fields in plan:"
    followed by exactly the absent ones, in the order of the required
    list; when all four are present it succeeds, whatever their values. *)
Theorem validate_required_fields_presence (plan_json : doc) :
  let missing := filter (fun f => plan_json !! f = None) Planner.required_fields in
  (forall f, f ∈ missing <-> f ∈ Planner.required_fields /\ plan_json !! f = None)
  /\ match missing with
     | [] => Planner.validate_required_fields (VDict plan_json) = Return tt
     | _ => Planner.validate_required_fields (VDict plan_json)
            = Raise (ValueError ("Missing required fields in plan: " ++ join ", " missing))
     end
  /\ ((forall f, f ∈ Planner.required_fields -> is_Some (plan_json !! f)) ->
      Planner.validate_required_fields (VDict plan_json) = Return tt)
  /\ ((exists f, f ∈ Planner.required_fields /\ plan_json !! f = None) ->
      missing <> []
      /\ Planner.validate_required_fields (VDict plan_json)
         = Raise (ValueError ("Missing required fields in plan: " ++ join ", " missing))).
Proof.
  intros missing.
  assert (E : forall f, f ∈ missing <-> f ∈ Planner.required_fields /\ plan_json !! f = None).
  { intros f. unfold missing. rewrite list_elem_of_filter. tauto. }
  assert (V : match missing with
              | [] => Planner.validate_required_fields (VDict plan_json) = Return tt
              | _ => Planner.validate_required_fields (VDict plan_json)
                     = Raise (ValueError ("Missing required fields in plan: "
                                          ++ join ", " missing))
              end).
  { unfold Planner.validate_required_fields. rewrite missing_fields_dict.
    fold missing. by destruct missing. }
  refine (conj E (conj V (conj _ _))).
  - intros All. destruct missing as [|f rest]; [done|].
    destruct (proj1 (E f)) as [In N]; [left|].
    destruct (All f In) as [v Hv]. congruence.
  - intros (f & In & N).
    assert (In' : f ∈ missing) by (by apply E).
    destruct missing as [|g rest]; [by apply elem_of_nil in In'|]. done.
Qed.

(** C4 on a plan whose four fields are empty, and on the same plan
    without its milestones. *)
Lemma validate_required_fields_presence_witness :
  Planner.validate_required_fields (VDict complete_plan_of_empty_lists) = Return tt
  /\ Planner.validate_required_fields (VDict (delete "major_milestones" complete_plan_of_empty_lists))
     = Raise (ValueError "Missing required fields in plan: major_milestones").
Proof.
  split.
  - destruct (validate_required_fields_presence complete_plan_of_empty_lists)
      as (_ & _ & W & _).
    apply W. intros f Hf. unfold Planner.required_fields in Hf.
    repeat (apply elem_of_cons in Hf as [->|Hf]); try (vm_compute; eauto; fail).
    by apply elem_of_nil in Hf.
  - destruct (validate_required_fields_presence
                (delete "major_milestones" complete_plan_of_empty_lists))
      as (_ & _ & _ & W).
    destruct W as [_ ->]; [|reflexivity].
    exists "major_milestones". split; [|reflexivity].
    unfold Planner.required_fields. by repeat constructor.
Defined.

(** ** The pipelines *)

Section PlannerFacts.
Context {libs : Libraries}.

Lemma error_result_fields (e : exn) (message : string) :
  Planner.error_result e message !! "error" = Some (VStr (py_str e))
  /\ Planner.error_result e message !! "message" = Some (VStr message).
Proof.
  unfold Planner.error_result. split.
  - apply lookup_insert_eq.
  - rewrite lookup_insert_ne by done. apply lookup_insert_eq.
Qed.

Lemma generate_project_plan_unfold (project_details : doc) (llm : Planner.chain) (now : Z)
    (st : store) :
  Planner.generate_project_plan project_details llm now st
  = match Planner.build_context project_details with
    | Raise e =>
        (Return (Planner.error_result e "Failed to set up project plan generation."), st)
    | Return context =>
        match Planner.generate_body project_details context llm now st with
        | (Return plan, st') => (Return plan, st')
        | (Raise e, st') =>
            (Return (Planner.error_result e "Failed to generate project plan."), st')
        end
    end.
Proof.
  unfold Planner.generate_project_plan. run.
  destruct (Planner.build_context project_details) as [context|e]; [|done].
  by destruct (Planner.generate_body _ _ _ _ _) as [[plan|e] st'].
Qed.

Lemma refine_project_tasks_unfold (project_id : string) (tasks : value) (llm : Planner.chain)
    (t1 t2 t3 : Z) (st : store) :
  Planner.refine_project_tasks project_id tasks llm t1 t2 t3 st
  = match Planner.refine_body project_id tasks llm t1 t2 t3 st with
    | (Return res, st') => (Return res, st')
    | (Raise e, st') =>
        (Return (Planner.error_result e "Failed to refine project tasks."), st')
    end.
Proof.
  unfold Planner.refine_project_tasks. run.
  by destruct (Planner.refine_body _ _ _ _ _ _ _) as [[res|e] st'].
Qed.

(** C7.  Neither pipeline lets an exception reach its caller.
    [generate_project_plan] and [refine_project_tasks] always return a
    dictionary: the result of their body when it returns, and otherwise,
    whatever the body raised and wherever (context set-up, provider after
    the retries, parsing, validation, the store), the failure object with
    the fields [error], holding [str] of the exception, and [message]. *)
Theorem pipelines_return_error_objects :
  (forall (project_details : doc) (llm : Planner.chain) (now : Z) (st : store),
      exists (result : doc) (st' : store),
        Planner.generate_project_plan project_details llm now st = (Return result, st')
        /\ ((exists context,
               Planner.build_context project_details = Return context
               /\ Planner.generate_body project_details context llm now st
                  = (Return result, st'))
            \/ (exists e message,
                  (Planner.build_context project_details = Raise e
                   \/ exists context,
                        Planner.build_context project_details = Return context
                        /\ Planner.generate_body project_details context llm now st
                           = (Raise e, st'))
                  /\ result = Planner.error_result e message
                  /\ result !! "error" = Some (VStr (py_str e))
                  /\ result !! "message" = Some (VStr message))))
  /\ (forall (project_id : string) (tasks : value) (llm : Planner.chain)
             (t1 t2 t3 : Z) (st : store),
        exists (result : doc) (st' : store),
          Planner.refine_project_tasks project_id tasks llm t1 t2 t3 st = (Return result, st')
          /\ (Planner.refine_body project_id tasks llm t1 t2 t3 st = (Return result, st')
              \/ (exists e,
                    Planner.refine_body project_id tasks llm t1 t2 t3 st = (Raise e, st')
                    /\ result = Planner.error_result e "Failed to refine project tasks."
                    /\ result !! "error" = Some (VStr (py_str e))
                    /\ result !! "message" = Some (VStr "Failed to refine project tasks.")))).
Proof.
  split.
  - intros project_details llm now st. rewrite generate_project_plan_unfold.
    destruct (Planner.build_context project_details) as [context|e] eqn:B.
    + destruct (Planner.generate_body _ _ _ _ _) as [[plan|e] st'] eqn:G.
      * exists plan, st'. split; [done|]. left. by exists context.
      * eexists _, st'. split; [done|]. right. exists e, "Failed to generate project plan.".
        split; [right; by exists context|]. split; [done|]. apply error_result_fields.
    + eexists _, st. split; [done|]. right.
      exists e, "Failed to set up project plan generation.".
      split; [by left|]. split; [done|]. apply error_result_fields.
  - intros project_id tasks llm t1 t2 t3 st. rewrite refine_project_tasks_unfold.
    destruct (Planner.refine_body _ _ _ _ _ _ _) as [[res|e] st'] eqn:R.
    + exists res, st'. split; [done|]. by left.
    + eexists _, st'. split; [done|]. right. exists e. split; [done|]. split; [done|].
      apply error_result_fields.
Qed.

(** The failures the pipeline meets, one by one. *)

Lemma generate_body_provider_error (pd : doc) (context : Planner.plan_context)
    (llm : Planner.chain) (now : Z) (st : store) (e : exn) :
  run_result (call_with_retry (llm (Planner.PlanPrompt context))) = Raise e ->
  Planner.generate_body pd context llm now st = (Raise e, st).
Proof. intros E. unfold Planner.generate_body. run. by rewrite E. Qed.

Lemma generate_body_parsed (pd : doc) (context : Planner.plan_context)
    (llm : Planner.chain) (now : Z) (st : store) (r : string) :
  run_result (call_with_retry (llm (Planner.PlanPrompt context))) = Return r ->
  Planner.generate_body pd context llm now st
  = match Planner.parse_plan_response r with
    | Raise e => (Raise e, st)
    | Return plan_json =>
        match Planner.validate_required_fields plan_json with
        | Raise e => (Raise e, st)
        | Return _ =>
            match pd !! "_id" with
            | None => (Raise (KeyError "_id"), st)
            | Some i => AppMongoDB.store_project_plan (str_value i) plan_json now st
            end
        end
    end.
Proof.
  intros E. unfold Planner.generate_body. run. rewrite E.
  destruct (Planner.parse_plan_response r) as [v|e]; [|done].
  destruct (Planner.validate_required_fields v) as [[]|e]; [|done].
  by destruct (pd !! "_id").
Qed.


End PlannerFacts.





Lemma store_project_plan_not_a_dict (pid : string) (v : value) (now : Z) (st : store) :
  (forall d, v <> VDict d) ->
  AppMongoDB.store_project_plan pid v now st
  = (Raise (match st with Some _ => TypeError | None => db_not_initialized end), st).
Proof.
  intros N. unfold AppMongoDB.store_project_plan. run.
  destruct st as [db|]; [|done]. destruct v as [| | | | | | | |plan]; try done.
  by destruct (N plan).
Qed.

Section RepairClaim.
Context {libs : Libraries}.



End RepairClaim.



(** Text after the object only is not removed: the trimmed response starts
    with a brace, so it is parsed as it is and rejected. *)
Lemma trailing_text_is_not_repaired :
  let r := Reference.py "{'project_summary': 'A site'} Let me know!" in
  Planner.clean_response "{" "}" r = r
  /\ exists m, Planner.parse_plan_response (libs := Reference.libraries) r
               = Raise (ValueError ("Invalid JSON response from LLM: " ++ m)).
Proof.
  split; [vm_compute; reflexivity|]. eexists. vm_compute. reflexivity.
Qed.

(** ** Task refinement *)

Section RefineClaim.
Context {libs : Libraries}.

Lemma plan_matches_project_id (pid : string) (d : doc) :
  plan_matches pid d = true -> d !! "project_id" = Some (VStr pid).
Proof.
  unfold plan_matches. destruct (d !! "project_id") as [[]|]; try done.
  simpl. by intros ->%String.eqb_eq.
Qed.


End RefineClaim.



(** ** The plan route *)




Lemma minimum_plan_no_project_id (plan : doc) (now : Z) :
  stamped (Routes.minimum_plan plan) now !! "project_id" = None.
Proof. by rewrite stamped_other. Qed.

Section RouteClaim.
Context {libs : Libraries}.






End RouteClaim.


(** The failures of the synthesizer, evaluated: the provider failing on
    every attempt, a response that is not JSON, a plan without its
    milestones, and a store that is not connected. *)
Lemma generate_project_plan_failures :
  let run (llm : Planner.chain) (st : store) :=
    (Planner.generate_project_plan (libs := Reference.libraries)
       (Routes.placeholder_context "p1") llm 7 st).1 in
  let failed (e : exn) :=
    Return (Planner.error_result (libs := Reference.libraries) e
              "Failed to generate project plan.") in
  run (fun _ _ => Raise (RateLimitError "slow down")) (Some empty_database)
  = failed (RetryError (RateLimitError "slow down"))
  /\ run (fun _ _ => Return "I cannot help with that.") (Some empty_database)
     = failed (ValueError "Invalid JSON response from LLM: <diagnostic>")
  /\ run (fun _ _ => Return (Reference.py "{'project_summary': 'A site'}"))
         (Some empty_database)
     = failed (ValueError ("Missing required fields in plan: "
                           ++ "key_features_deliverables, major_milestones, high_level_tasks"))
  /\ run (fun _ _ => Return complete_response) None = failed db_not_initialized.
Proof. repeat split; vm_compute; reflexivity. Qed.

(** * Further facts *)

(** ** The plan rows under [store_project_plan] *)

(** The number of rows a project id has. *)
Lemma plan_matches_both (pid pid' : string) (d : doc) :
  plan_matches pid d = true -> plan_matches pid' d = true -> pid = pid'.
Proof.
  unfold plan_matches. destruct (d !! "project_id") as [[]|]; try done.
  simpl. intros ->%String.eqb_eq ->%String.eqb_eq. done.
Qed.

Lemma plan_matches_other (pid pid' : string) (d : doc) :
  pid <> pid' -> plan_matches pid d = true -> plan_matches pid' d = false.
Proof.
  intros N M. destruct (plan_matches pid' d) eqn:E; [|done].
  by destruct N; apply (plan_matches_both _ _ d).
Qed.


Lemma rows_of_upsert_other (pid pid' : string) (upd : doc) (rows : list doc) :
  upd !! "project_id" = None -> pid <> pid' ->
  rows_of pid' (upsert_rows pid upd rows) = rows_of pid' rows
  /\ List.find (plan_matches pid') (upsert_rows pid upd rows)
     = List.find (plan_matches pid') rows.
Proof.
  intros N Np. unfold rows_of. induction rows as [|d rows [IH1 IH2]]; simpl.
  - rewrite plan_matches_union by done.
    by rewrite (plan_matches_other pid pid') by (done || apply plan_matches_singleton).
  - destruct (plan_matches pid d) eqn:E; simpl.
    + rewrite plan_matches_union by done.
      by rewrite (plan_matches_other pid pid' d Np E).
    + destruct (plan_matches pid' d); simpl; [by rewrite IH1|done].
Qed.





(** ** [update_project], [soft_delete_project], [_serialize_project] *)

Section GatewayMore.
Context {libs : Libraries}.

Lemma ObjectId_to_str_not_an_id (v : value) (h : string) : ObjectId_to_str v <> VOid h.
Proof. by destruct v. Qed.

Lemma convert_tasks_other (upd : doc) (k : string) :
  k <> "tasks" -> AgentMongoDB.convert_tasks upd !! k = upd !! k.
Proof.
  intros N. unfold AgentMongoDB.convert_tasks.
  destruct (upd !! "tasks") as [t|]; [|done].
  destruct (py_truthy t); [|done].
  destruct (AgentMongoDB.map_iter to_ObjectId t); [|done].
  by rewrite lookup_insert_ne.
Qed.

Lemma convert_tasks_list (upd : doc) (l : list value) :
  upd !! "tasks" = Some (VList l) ->
  AgentMongoDB.convert_tasks upd !! "tasks" = Some (VList (to_ObjectId <$> l)).
Proof.
  intros E. unfold AgentMongoDB.convert_tasks. rewrite E.
  destruct l as [|x l]; [done|]. simpl. by rewrite lookup_insert_eq.
Qed.

Lemma convert_tasks_absent (upd : doc) :
  upd !! "tasks" = None -> AgentMongoDB.convert_tasks upd = upd.
Proof. intros E. unfold AgentMongoDB.convert_tasks. by rewrite E. Qed.

Lemma update_project_existing (db : database) (project_id oid : string) (d upd : doc)
    (now : Z) :
  ObjectId project_id = Some oid ->
  projects db !! oid = Some d ->
  let d' := <["updated_at" := VTime now]> (AgentMongoDB.convert_tasks upd) ∪ d in
  AgentMongoDB.update_project project_id upd now (Some db)
  = (match AgentMongoDB._serialize_project (<["_id" := VOid oid]> d') with
     | Return p => Return (VDict p)
     | Raise e => Raise (HTTPException 500 (VStr (py_str e)))
     end,
     Some (with_project db oid d')).
Proof.
  intros E P d'. unfold AgentMongoDB.update_project, find_one_and_update_project. run.
  rewrite E, P, truthy_insert. fold d'.
  destruct (AgentMongoDB._serialize_project _) as [p|e] eqn:S; [done|].
  by destruct (serialize_raises _ _ S) as [-> | ->].
Qed.

(** The serializer, field by field. *)
Lemma serialize_fields (project : doc) (i : value) :
  project !! "_id" = Some i ->
  tasks_iterable project ->
  exists p,
    AgentMongoDB._serialize_project project = Return p
    /\ p !! "_id" = Some (VStr (str_value i))
    /\ p !! "user" = ObjectId_to_str <$> project !! "user"
    /\ p !! "tasks"
       = (fun t => VList (ObjectId_to_str <$> default [] (py_iter t))) <$> project !! "tasks"
    /\ forall k, k <> "_id" -> k <> "user" -> k <> "tasks" -> p !! k = project !! k.
Proof.
  intros Ei Ht. unfold AgentMongoDB._serialize_project.
  assert (T : py_truthy (VDict project) = true).
  { simpl. apply negb_true_iff, bool_decide_eq_false. intros ->. by rewrite lookup_empty in Ei. }
  rewrite T, Ei. cbn [negb].
  set (p1 := <["_id" := VStr (str_value i)]> project).
  set (p2 := match p1 !! "user" with
             | Some (VOid h) => <["user" := VStr (str_value (VOid h))]> p1
             | _ => p1
             end).
  assert (S2 : forall k, k <> "_id" -> k <> "user" -> p2 !! k = project !! k).
  { intros k N1 N2. unfold p2.
    destruct (p1 !! "user") as [[]|]; unfold p1; by rewrite ?lookup_insert_ne. }
  assert (Sid : p2 !! "_id" = Some (VStr (str_value i))).
  { unfold p2. destruct (p1 !! "user") as [[]|]; unfold p1;
      rewrite ?lookup_insert_ne by done; apply lookup_insert_eq. }
  assert (Su : p2 !! "user" = ObjectId_to_str <$> project !! "user").
  { unfold p2. assert (U : p1 !! "user" = project !! "user")
      by (unfold p1; by rewrite lookup_insert_ne).
    rewrite U. destruct (project !! "user") as [[]|] eqn:Eu;
      rewrite ?lookup_insert_eq, ?U; done. }
  rewrite (S2 "tasks") by done.
  unfold tasks_iterable in Ht.
  destruct (project !! "tasks") as [tk|] eqn:Et.
  - destruct Ht as [l Hl]. unfold AgentMongoDB.map_iter. rewrite Hl.
    eexists. split; [done|].
    split; [by rewrite lookup_insert_ne|].
    split; [by rewrite lookup_insert_ne|].
    split; [rewrite lookup_insert_eq; simpl; by rewrite Hl|].
    intros k N1 N2 N3. by rewrite lookup_insert_ne, S2.
  - eexists. split; [done|]. split; [done|]. split; [done|]. split; [by rewrite S2|].
    intros k N1 N2 N3. by rewrite S2.
Qed.

(** X3.  [_serialize_project] on a document with an [_id].  When the
    [tasks] field, if any, can be iterated over, the result has the [_id] as
    a string, no [ObjectId] left under [user] or among the [tasks], and every
    other field unchanged.  When [tasks] is there and cannot be iterated
    over, the function raises [TypeError]. *)
Theorem serialize_project_renders_ids (project : doc) (i : value) :
  project !! "_id" = Some i ->
  (tasks_iterable project ->
   exists p,
     AgentMongoDB._serialize_project project = Return p
     /\ p !! "_id" = Some (VStr (str_value i))
     /\ p !! "user" = ObjectId_to_str <$> project !! "user"
     /\ (forall h, p !! "user" <> Some (VOid h))
     /\ (forall t, p !! "tasks" = Some t ->
           exists l, t = VList l /\ forall h, VOid h ∉ l)
     /\ forall k, k <> "_id" -> k <> "user" -> k <> "tasks" -> p !! k = project !! k)
  /\ (forall t, project !! "tasks" = Some t -> py_iter t = None ->
        AgentMongoDB._serialize_project project = Raise TypeError).
Proof.
  intros Ei. split.
  - intros Ht. destruct (serialize_fields project i Ei Ht) as (p & S & A & B & C & D).
    exists p. split; [done|]. split; [done|]. split; [done|]. split.
    { intros h. rewrite B. destruct (project !! "user") as [u|]; [|done].
      simpl. intros [= E]. by apply ObjectId_to_str_not_an_id in E. }
    split; [|done].
    intros t. rewrite C. destruct (project !! "tasks") as [tk|]; [|done].
    simpl. intros [= <-]. eexists. split; [done|].
    intros h [v [E _]]%list_elem_of_fmap. symmetry in E.
    by apply ObjectId_to_str_not_an_id in E.
  - intros t Et Hn. unfold AgentMongoDB._serialize_project.
    assert (T : py_truthy (VDict project) = true).
    { simpl. apply negb_true_iff, bool_decide_eq_false. intros ->.
      by rewrite lookup_empty in Ei. }
    rewrite T, Ei. cbn [negb].
    assert (E2 : forall p : doc, p !! "tasks" = Some t ->
              match p !! "tasks" with
              | Some tasks =>
                  match AgentMongoDB.map_iter ObjectId_to_str tasks with
                  | Return l => Return (<["tasks" := l]> p)
                  | Raise e => Raise e
                  end
              | None => Return p
              end = Raise TypeError).
    { intros p ->. unfold AgentMongoDB.map_iter. by rewrite Hn. }
    apply E2.
    destruct (_ !! "user") as [[]|]; rewrite ?lookup_insert_ne by done; done.
Qed.

(** X4.  [update_project] on a stored project never returns [None].
    The stored document gets [updated_at] from the clock, the supplied
    fields as supplied, a supplied [tasks] list with its valid ids turned
    into [ObjectId]s, and keeps every field that is not supplied.  When the
    [tasks] of the updated document can be iterated over, the result is the
    document with its [_id] as the string of the stored id. *)
Theorem update_project_changes_supplied_fields
    (db : database) (project_id oid : string) (d upd : doc) (now : Z) :
  ObjectId project_id = Some oid ->
  projects db !! oid = Some d ->
  exists (r : outcome value) (db' : database) (d' : doc),
    AgentMongoDB.update_project project_id upd now (Some db) = (r, Some db')
    /\ r <> Return VNone
    /\ projects db' !! oid = Some d'
    /\ d' !! "updated_at" = Some (VTime now)
    /\ (forall k, k <> "updated_at" -> upd !! k = None -> d' !! k = d !! k)
    /\ (forall k v, k <> "updated_at" -> k <> "tasks" -> upd !! k = Some v ->
          d' !! k = Some v)
    /\ (forall l, upd !! "tasks" = Some (VList l) ->
          d' !! "tasks" = Some (VList (to_ObjectId <$> l)))
    /\ (tasks_iterable d' ->
        exists p, r = Return (VDict p)
                  /\ p !! "_id" = Some (VStr oid)
                  /\ forall k, k <> "_id" -> k <> "user" -> k <> "tasks" ->
                       p !! k = d' !! k).
Proof.
  intros E P.
  rewrite (update_project_existing db project_id oid d upd now E P).
  set (u := <["updated_at" := VTime now]> (AgentMongoDB.convert_tasks upd)).
  eexists _, _, (u ∪ d). split; [reflexivity|]. split.
  { by destruct (AgentMongoDB._serialize_project _). }
  split; [simpl; apply lookup_insert_eq|]. split.
  { erewrite lookup_union_Some_l; [done|]. apply lookup_insert_eq. }
  split.
  { intros k Nk Hk. rewrite lookup_union_r; [done|].
    unfold u. rewrite lookup_insert_ne by done.
    destruct (decide (k = "tasks")) as [->|Nt].
    - by rewrite convert_tasks_absent.
    - by rewrite convert_tasks_other. }
  split.
  { intros k v Nk Nt Hk. apply lookup_union_Some_l.
    unfold u. rewrite lookup_insert_ne by done. by rewrite convert_tasks_other. }
  split.
  { intros l Hl. apply lookup_union_Some_l.
    unfold u. rewrite lookup_insert_ne by done. by apply convert_tasks_list. }
  intros Ht.
  destruct (serialize_fields (<["_id" := VOid oid]> (u ∪ d)) (VOid oid))
    as (p & S & A & _ & _ & D).
  { apply lookup_insert_eq. }
  { unfold tasks_iterable. by rewrite lookup_insert_ne. }
  rewrite S. exists p. split; [done|]. split; [done|].
  intros k N1 N2 N3. rewrite D by done. by rewrite lookup_insert_ne.
Qed.

(** X5.  [update_project] and [soft_delete_project] never connect or
    disconnect the store, never touch the plan rows, and leave every project
    but the one the id denotes as it is, whatever they return or raise. *)
Theorem project_writes_touch_one_project
    (st : store) (project_id : string) (upd : doc) (now : Z) :
  let touched (st' : store) :=
    match st, st' with
    | None, None => True
    | Some db, Some db' =>
        project_plans db' = project_plans db
        /\ forall oid, ObjectId project_id <> Some oid ->
             projects db' !! oid = projects db !! oid
    | _, _ => False
    end in
  touched (AgentMongoDB.update_project project_id upd now st).2
  /\ touched (AgentMongoDB.soft_delete_project project_id now st).2.
Proof.
  intros touched. unfold touched.
  destruct st as [db|]; [|done].
  destruct (ObjectId project_id) as [oid|] eqn:E.
  - destruct (projects db !! oid) as [d|] eqn:P.
    + rewrite (update_project_existing db project_id oid d upd now E P).
      rewrite (soft_delete_project_existing db project_id oid d now E P).
      cbn [snd with_project projects project_plans].
      split; (split; [done|]); intros oid' N; apply lookup_insert_ne; congruence.
    + rewrite (update_project_absent db project_id oid upd now E P).
      by rewrite (soft_delete_project_absent db project_id oid now E P).
  - destruct (soft_delete_as_update_invalid (Some db) project_id upd now E) as [Eq S].
    rewrite <- Eq, (S db eq_refl). done.
Qed.

End GatewayMore.

(** X3 on the example project. *)
Lemma serialize_project_renders_ids_witness :
  exists p : doc,
    AgentMongoDB._serialize_project (libs := Reference.libraries)
      (<["_id" := VOid example_oid]> example_project) = Return p
    /\ p !! "_id" = Some (VStr example_oid)
    /\ p !! "title" = Some (VStr "Website Redesign").
Proof.
  destruct (serialize_project_renders_ids (libs := Reference.libraries)
              (<["_id" := VOid example_oid]> example_project) (VOid example_oid))
    as [S _]; [reflexivity|].
  destruct S as (p & E & I & _ & _ & _ & O).
  { unfold tasks_iterable. vm_compute. eauto. }
  exists p. split; [exact E|]. split; [exact I|]. rewrite O by done. reflexivity.
Defined.

(** X4 on a new title for the example project, at clock reading 7. *)
Lemma update_project_changes_supplied_fields_witness :
  exists (r : outcome value) (db' : database) (d' : doc),
    AgentMongoDB.update_project (libs := Reference.libraries) example_oid
      (<["title" := VStr "Shop"]> ∅) 7
      (Some (with_project empty_database example_oid example_project))
    = (r, Some db')
    /\ projects db' !! example_oid = Some d'
    /\ d' !! "title" = Some (VStr "Shop")
    /\ d' !! "status" = Some (VStr "planning")
    /\ d' !! "updated_at" = Some (VTime 7).
Proof.
  destruct (update_project_changes_supplied_fields (libs := Reference.libraries)
              (with_project empty_database example_oid example_project)
              example_oid example_oid example_project (<["title" := VStr "Shop"]> ∅) 7)
    as (r & db' & d' & E & _ & P & U & K & C & _); [reflexivity | reflexivity |].
  exists r, db', d'. split; [exact E|]. split; [exact P|]. split.
  - apply C; done.
  - split; [|exact U]. rewrite K by done. reflexivity.
Defined.

(** ** [create_project] *)

Section CreateProject.
Context {libs : Libraries}.

(** The document [create_project] inserts. *)
Lemma render_created_serialize (project : doc) (i : value) :
  project !! "_id" = Some i ->
  AgentMongoDB.render_created project
  = match AgentMongoDB._serialize_project project with
    | Return p => match p !! "title" with
                  | Some _ => Return p
                  | None => Raise (KeyError "title")
                  end
    | Raise e => Raise e
    end.
Proof.
  intros Ei. unfold AgentMongoDB.render_created, AgentMongoDB._serialize_project.
  assert (T : py_truthy (VDict project) = true).
  { simpl. apply negb_true_iff, bool_decide_eq_false. intros ->. by rewrite lookup_empty in Ei. }
  rewrite T, Ei. cbn [negb].
  destruct (_ !! "tasks") as [t|]; [|done].
  by destruct (AgentMongoDB.map_iter ObjectId_to_str t).
Qed.

Lemma create_project_unfold (db : database) (project_data : doc) (new_id : string) (now : Z) :
  let with_user :=
    match AgentMongoDB.convert_tasks project_data !! "user" with
    | Some user => <["user" := to_ObjectId user]> (AgentMongoDB.convert_tasks project_data)
    | None => AgentMongoDB.convert_tasks project_data
    end in
  let inserted := <["updated_at" := VTime now]> (<["created_at" := VTime now]> with_user) in
  AgentMongoDB.create_project project_data new_id now (Some db)
  = (match AgentMongoDB.render_created (<["_id" := VOid new_id]> inserted) with
     | Return r => Return r
     | Raise e => Raise (HTTPException 500 (VStr (py_str e)))
     end,
     Some (insert_one_project db new_id inserted)).
Proof.
  intros with_user inserted. unfold AgentMongoDB.create_project. run.
  fold with_user. unfold dict_get. rewrite lookup_insert_eq. fold inserted.
  unfold find_one_project, insert_one_project. cbn [projects].
  rewrite lookup_insert_eq. cbn [fmap option_fmap option_map]. rewrite truthy_insert.
  by destruct (AgentMongoDB.render_created _).
Qed.

Lemma inserted_lookup (project_data : doc) (now : Z) (k : string) :
  let with_user :=
    match AgentMongoDB.convert_tasks project_data !! "user" with
    | Some user => <["user" := to_ObjectId user]> (AgentMongoDB.convert_tasks project_data)
    | None => AgentMongoDB.convert_tasks project_data
    end in
  let inserted := <["updated_at" := VTime now]> (<["created_at" := VTime now]> with_user) in
  inserted !! "updated_at" = Some (VTime now)
  /\ inserted !! "created_at" = Some (VTime now)
  /\ inserted !! "user" = to_ObjectId <$> project_data !! "user"
  /\ inserted !! "tasks" = AgentMongoDB.convert_tasks project_data !! "tasks"
  /\ (k <> "updated_at" -> k <> "created_at" -> k <> "user" -> k <> "tasks" ->
      inserted !! k = project_data !! k).
Proof.
  intros with_user inserted.
  assert (U : AgentMongoDB.convert_tasks project_data !! "user" = project_data !! "user")
    by (by apply convert_tasks_other).
  split; [apply lookup_insert_eq|].
  split; [unfold inserted; rewrite lookup_insert_ne by done; apply lookup_insert_eq|].
  unfold inserted, with_user. rewrite U.
  split; [|split].
  - rewrite !lookup_insert_ne by done.
    destruct (project_data !! "user") as [u|] eqn:Eu; simpl.
    + apply lookup_insert_eq.
    + by rewrite U.
  - rewrite !lookup_insert_ne by done.
    destruct (project_data !! "user"); by rewrite ?lookup_insert_ne.
  - intros N1 N2 N3 N4. rewrite !lookup_insert_ne by done.
    destruct (project_data !! "user"); rewrite ?lookup_insert_ne by done;
      by apply convert_tasks_other.
Qed.

Lemma create_project_record
    (db : database) (project_data : doc) (new_id : string) (now : Z) (title : value) :
  projects db !! new_id = None ->
  project_data !! "_id" = None ->
  project_data !! "title" = Some title ->
  tasks_listed project_data ->
  exists (r : doc) (db' : database),
    AgentMongoDB.create_project project_data new_id now (Some db) = (Return r, Some db')
    /\ r !! "_id" = Some (VStr new_id)
    /\ r !! "created_at" = Some (VTime now)
    /\ r !! "updated_at" = Some (VTime now)
    /\ r !! "user" = render_id <$> project_data !! "user"
    /\ (forall l, project_data !! "tasks" = Some (VList l) ->
          r !! "tasks" = Some (VList (render_id <$> l)))
    /\ (forall k, k <> "_id" -> k <> "created_at" -> k <> "updated_at" ->
                  k <> "user" -> k <> "tasks" -> r !! k = project_data !! k)
    /\ is_Some (projects db' !! new_id)
    /\ (forall oid, oid <> new_id -> projects db' !! oid = projects db !! oid)
    /\ project_plans db' = project_plans db.
Proof.
  intros Fresh Nid Ht Hl.
  rewrite create_project_unfold. cbv zeta.
  destruct (inserted_lookup project_data now "title") as (Iu & Ic & Iuser & Itasks & Ititle).
  cbv zeta in Iu, Ic, Iuser, Itasks, Ititle.
  set (inserted := <["updated_at" := VTime now]> _) in *.
  assert (Io : forall k, k <> "updated_at" -> k <> "created_at" -> k <> "user" ->
                         k <> "tasks" -> inserted !! k = project_data !! k).
  { intros k. destruct (inserted_lookup project_data now k) as (_ & _ & _ & _ & O). exact O. }
  assert (Tl : tasks_iterable (<["_id" := VOid new_id]> inserted)).
  { unfold tasks_iterable. rewrite lookup_insert_ne by done. rewrite Itasks.
    unfold tasks_listed in Hl.
    destruct (project_data !! "tasks") as [t|] eqn:Et.
    - destruct Hl as [l ->]. by rewrite (convert_tasks_list _ l Et).
    - by rewrite convert_tasks_absent, Et. }
  rewrite (render_created_serialize _ (VOid new_id)) by apply lookup_insert_eq.
  destruct (serialize_fields (<["_id" := VOid new_id]> inserted) (VOid new_id))
    as (p & S & A & B & C & D); [apply lookup_insert_eq | done |].
  rewrite S.
  assert (Pt : p !! "title" = Some title).
  { rewrite D by done. rewrite lookup_insert_ne by done. by rewrite Io. }
  rewrite Pt.
  exists p, (insert_one_project db new_id inserted).
  split; [done|]. split; [done|].
  split; [rewrite D by done; by rewrite lookup_insert_ne|].
  split; [rewrite D by done; by rewrite lookup_insert_ne|].
  split.
  { rewrite B, lookup_insert_ne by done. rewrite Iuser.
    by destruct (project_data !! "user"). }
  split.
  { intros l El. rewrite C, lookup_insert_ne by done. rewrite Itasks.
    rewrite (convert_tasks_list _ l El). simpl. f_equal. f_equal.
    by rewrite <- list_fmap_compose. }
  split.
  { intros k N1 N2 N3 N4 N5. rewrite D by done. rewrite lookup_insert_ne by done.
    by apply Io. }
  split; [simpl; rewrite lookup_insert_eq; eauto|].
  split; [|done].
  intros oid No. simpl. by rewrite lookup_insert_ne.
Qed.

(** X6.  [create_project] on data with a title, no [_id] and a listed
    [tasks], with an identifier no stored project has: the result carries
    the new id as a string, [created_at] and [updated_at] equal to the clock
    reading, [user] and the [tasks] as they were given (a string that spells
    an [ObjectId] in its canonical rendering), and every other field as
    given.  The project is stored under the new id; the other projects and
    the plan rows are unchanged. *)
Theorem create_project_returns_record
    (db : database) (project_data : doc) (new_id : string) (now : Z) (title : value) :
  projects db !! new_id = None ->
  project_data !! "_id" = None ->
  project_data !! "title" = Some title ->
  tasks_listed project_data ->
  exists (r : doc) (db' : database),
    AgentMongoDB.create_project project_data new_id now (Some db) = (Return r, Some db')
    /\ r !! "_id" = Some (VStr new_id)
    /\ r !! "created_at" = Some (VTime now)
    /\ r !! "updated_at" = Some (VTime now)
    /\ r !! "user" = render_id <$> project_data !! "user"
    /\ (forall l, project_data !! "tasks" = Some (VList l) ->
          r !! "tasks" = Some (VList (render_id <$> l)))
    /\ (forall k, k <> "_id" -> k <> "created_at" -> k <> "updated_at" ->
                  k <> "user" -> k <> "tasks" -> r !! k = project_data !! k)
    /\ is_Some (projects db' !! new_id)
    /\ (forall oid, oid <> new_id -> projects db' !! oid = projects db !! oid)
    /\ project_plans db' = project_plans db.
Proof. by apply create_project_record. Qed.

(** X7.  [create_project] reads the title only for its last log line,
    after the insertion.  Data without a title make it raise a server error
    whose detail is the text of the [KeyError], and the project is stored
    all the same. *)
Theorem create_project_without_title_is_stored
    (db : database) (project_data : doc) (new_id : string) (now : Z) :
  projects db !! new_id = None ->
  project_data !! "_id" = None ->
  project_data !! "title" = None ->
  tasks_listed project_data ->
  exists (db' : database) (stored : doc),
    AgentMongoDB.create_project project_data new_id now (Some db)
    = (Raise (HTTPException 500 (VStr "'title'")), Some db')
    /\ projects db' !! new_id = Some stored
    /\ stored !! "created_at" = Some (VTime now)
    /\ forall k, k <> "created_at" -> k <> "updated_at" -> k <> "user" -> k <> "tasks" ->
         stored !! k = project_data !! k.
Proof.
  intros Fresh Nid Ht Hl.
  rewrite create_project_unfold. cbv zeta.
  destruct (inserted_lookup project_data now "title") as (Iu & Ic & Iuser & Itasks & Ititle).
  cbv zeta in Iu, Ic, Iuser, Itasks, Ititle.
  set (inserted := <["updated_at" := VTime now]> _) in *.
  assert (Io : forall k, k <> "updated_at" -> k <> "created_at" -> k <> "user" ->
                         k <> "tasks" -> inserted !! k = project_data !! k).
  { intros k. destruct (inserted_lookup project_data now k) as (_ & _ & _ & _ & O). exact O. }
  assert (Tl : tasks_iterable (<["_id" := VOid new_id]> inserted)).
  { unfold tasks_iterable. rewrite lookup_insert_ne by done. rewrite Itasks.
    unfold tasks_listed in Hl.
    destruct (project_data !! "tasks") as [t|] eqn:Et.
    - destruct Hl as [l ->]. by rewrite (convert_tasks_list _ l Et).
    - by rewrite convert_tasks_absent, Et. }
  rewrite (render_created_serialize _ (VOid new_id)) by apply lookup_insert_eq.
  destruct (serialize_fields (<["_id" := VOid new_id]> inserted) (VOid new_id))
    as (p & S & A & B & C & D); [apply lookup_insert_eq | done |].
  rewrite S.
  assert (Pt : p !! "title" = None).
  { rewrite D by done. rewrite lookup_insert_ne by done. by rewrite Io. }
  rewrite Pt.
  exists (insert_one_project db new_id inserted), inserted.
  split; [done|]. split; [simpl; apply lookup_insert_eq|]. split; [done|].
  intros k N1 N2 N3 N4. by apply Io.
Qed.

End CreateProject.

(** X6 on the example request on an empty store. *)
Lemma create_project_returns_record_witness :
  exists (r : doc) (db' : database),
    AgentMongoDB.create_project (libs := Reference.libraries) example_request example_oid 3
      (Some empty_database)
    = (Return r, Some db')
    /\ r !! "_id" = Some (VStr example_oid)
    /\ r !! "created_at" = Some (VTime 3)
    /\ r !! "title" = Some (VStr "Website Redesign").
Proof.
  destruct (create_project_returns_record (libs := Reference.libraries)
              empty_database example_request example_oid 3 (VStr "Website Redesign"))
    as (r & db' & E & I & C & _ & _ & _ & O & _);
    [reflexivity | reflexivity | reflexivity | |].
  { unfold tasks_listed. vm_compute. eauto. }
  exists r, db'. split; [exact E|]. split; [exact I|]. split; [exact C|].
  rewrite O by done. reflexivity.
Defined.

(** X7 on a request without a title on an empty store. *)
Lemma create_project_without_title_is_stored_witness :
  exists (db' : database) (stored : doc),
    AgentMongoDB.create_project (libs := Reference.libraries) untitled_request example_oid 3
      (Some empty_database)
    = (Raise (HTTPException 500 (VStr "'title'")), Some db')
    /\ projects db' !! example_oid = Some stored
    /\ stored !! "description" = Some (VStr "A new site").
Proof.
  destruct (create_project_without_title_is_stored (libs := Reference.libraries)
              empty_database untitled_request example_oid 3)
    as (db' & stored & E & P & _ & O);
    [reflexivity | reflexivity | reflexivity | exact I |].
  exists db', stored. split; [exact E|]. split; [exact P|].
  rewrite O by done. reflexivity.
Defined.

(** ** The project routes *)

Section ProjectRoutes.
Context {libs : Libraries}.

Lemma projection_lookup (d : doc) (k : string) :
  k = "_id" \/ k = "description" \/ k = "title" ->
  project_title_description d !! k = d !! k.
Proof.
  intros Hk. unfold project_title_description.
  destruct (d !! k) as [v|] eqn:E.
  - by apply map_lookup_filter_Some_2.
  - apply map_lookup_filter_None_2. by left.
Qed.

Lemma get_project_description_existing (db : database) (project_id oid : string) (d : doc) :
  ObjectId project_id = Some oid ->
  projects db !! oid = Some d ->
  Routes.get_project_description project_id (Some db)
  = (Return (description_of oid d), Some db).
Proof.
  intros E P. unfold Routes.get_project_description. run.
  rewrite E, (find_one_project_Some _ _ _ P). cbn [fmap option_fmap option_map].
  set (pr := project_title_description (<["_id" := VOid oid]> d)).
  assert (Pi : pr !! "_id" = Some (VOid oid)).
  { unfold pr. rewrite projection_lookup by auto. apply lookup_insert_eq. }
  assert (Pt : pr !! "title" = d !! "title").
  { unfold pr. rewrite projection_lookup by auto. by rewrite lookup_insert_ne. }
  assert (Pd : pr !! "description" = d !! "description").
  { unfold pr. rewrite projection_lookup by auto. by rewrite lookup_insert_ne. }
  assert (T : py_truthy (VDict pr) = true).
  { simpl. apply negb_true_iff, bool_decide_eq_false. intros Em.
    by rewrite Em, lookup_empty in Pi. }
  rewrite T. unfold dict_get, description_of, dict_get. by rewrite Pi, Pt, Pd.
Qed.

(** X8.  The description route never changes the store.  It answers
    500 before the store is connected, 400 for an id that is not an
    [ObjectId], 404 when no project has the id, and otherwise the id, the
    title and the description of the project, with "Untitled Project" and
    "No description available" for the absent ones. *)
Theorem get_project_description_contract (st : store) (project_id : string) :
  (Routes.get_project_description project_id st).2 = st
  /\ match st with
     | None => Routes.status_of (Routes.get_project_description project_id st).1 = 500%Z
     | Some db =>
         match ObjectId project_id with
         | None =>
             (Routes.get_project_description project_id st).1
             = Raise (HTTPException 400 (VStr "Invalid project ID format"))
         | Some oid =>
             match projects db !! oid with
             | None =>
                 (Routes.get_project_description project_id st).1
                 = Raise (HTTPException 404 (VStr "Project not found"))
             | Some d =>
                 (Routes.get_project_description project_id st).1
                 = Return (<["id" := VStr oid]>
                             (<["title" := dict_get d "title" (VStr "Untitled Project")]>
                             (<["description" :=
                                  dict_get d "description" (VStr "No description available")]>
                                ∅)))
             end
         end
     end.
Proof.
  destruct st as [db|]; [|done].
  destruct (ObjectId project_id) as [oid|] eqn:E.
  - destruct (projects db !! oid) as [d|] eqn:P.
    + by rewrite (get_project_description_existing db project_id oid d E P).
    + unfold Routes.get_project_description. run.
      by rewrite E, (find_one_project_None _ _ P).
  - unfold Routes.get_project_description. run. by rewrite E.
Qed.

Lemma serialize_has_id (project p : doc) (i : value) :
  project !! "_id" = Some i ->
  AgentMongoDB._serialize_project project = Return p ->
  p !! "_id" = Some (VStr (str_value i)).
Proof.
  intros Ei. unfold AgentMongoDB._serialize_project.
  assert (T : py_truthy (VDict project) = true).
  { simpl. apply negb_true_iff, bool_decide_eq_false. intros ->. by rewrite lookup_empty in Ei. }
  rewrite T, Ei. cbn [negb].
  set (p1 := <["_id" := VStr (str_value i)]> project).
  set (p2 := match p1 !! "user" with
             | Some (VOid h) => <["user" := VStr (str_value (VOid h))]> p1
             | _ => p1
             end).
  assert (Sid : p2 !! "_id" = Some (VStr (str_value i))).
  { unfold p2. destruct (p1 !! "user") as [[]|]; unfold p1;
      rewrite ?lookup_insert_ne by done; apply lookup_insert_eq. }
  destruct (p2 !! "tasks") as [t|].
  - destruct (AgentMongoDB.map_iter ObjectId_to_str t); [|done].
    intros [= <-]. by rewrite lookup_insert_ne.
  - by intros [= <-].
Qed.

Lemma truthy_with_id (p : doc) (v : value) :
  p !! "_id" = Some v -> py_truthy (VDict p) = true.
Proof.
  intros E. simpl. apply negb_true_iff, bool_decide_eq_false. intros ->.
  by rewrite lookup_empty in E.
Qed.

(** What a gateway write on an existing project hands to its route: the
    record, or a server error. *)
Lemma serialized_outcome (project : doc) (i : value) :
  project !! "_id" = Some i ->
  let r := match AgentMongoDB._serialize_project project with
           | Return p => Return (VDict p)
           | Raise e => Raise (HTTPException 500 (VStr (py_str e)))
           end in
  (exists p, r = Return (VDict p) /\ py_truthy (VDict p) = true)
  \/ (exists m, r = Raise (HTTPException 500 m)).
Proof.
  intros Ei r. unfold r.
  destruct (AgentMongoDB._serialize_project project) as [p|e] eqn:S.
  - left. exists p. split; [done|]. eapply truthy_with_id. by eapply serialize_has_id.
  - right. by eexists.
Qed.

(** X9.  The update route answers 400 on an empty update, before it
    looks at the store or the id and without changing the store.  Otherwise
    it answers 500 before the store is connected, 400 for an id that is not
    an [ObjectId], 404 when no project has the id, in each case with the
    store unchanged; on a stored project it does what the gateway's
    [update_project] does, which is 200 when the [tasks] of the updated
    document can be iterated over, and 500 at worst. *)
Theorem update_project_details_contract
    (st : store) (project_id : string) (update_data : doc) (now : Z) :
  let response := Routes.update_project_details project_id update_data now st in
  if bool_decide (update_data = ∅) then
    response = (Raise (HTTPException 400 (VStr "No update data provided")), st)
  else
    match st with
    | None => Routes.status_of response.1 = 500%Z /\ response.2 = None
    | Some db =>
        match ObjectId project_id with
        | None =>
            response = (Raise (HTTPException 400 (VStr "Invalid project ID format")), st)
        | Some oid =>
            match projects db !! oid with
            | None => response = (Raise (HTTPException 404 (VStr "Project not found")), st)
            | Some d =>
                response = AgentMongoDB.update_project project_id update_data now st
                /\ (Routes.status_of response.1 = 200%Z
                    \/ Routes.status_of response.1 = 500%Z)
                /\ (tasks_iterable (AgentMongoDB.convert_tasks update_data ∪ d) ->
                    Routes.status_of response.1 = 200%Z)
            end
        end
    end.
Proof.
  intros response. unfold response, Routes.update_project_details. run.
  cbn [py_truthy]. destruct (bool_decide (update_data = ∅)) eqn:Em; [done|].
  cbn [negb].
  destruct st as [db|]; [|done].
  destruct (ObjectId project_id) as [oid|] eqn:E.
  - destruct (projects db !! oid) as [d|] eqn:P.
    + rewrite (update_project_existing db project_id oid d update_data now E P).
      cbv zeta.
      set (d' := <["updated_at" := VTime now]> (AgentMongoDB.convert_tasks update_data) ∪ d).
      destruct (serialized_outcome (<["_id" := VOid oid]> d') (VOid oid))
        as [(p & R & T) | (m & R)]; [apply lookup_insert_eq | |].
      * cbv zeta in R. rewrite R, T. cbn [negb].
        split; [done|]. split; [by left|done].
      * cbv zeta in R. rewrite R. cbn [Routes.invalid_id_400 raise].
        split; [done|]. split; [by right|].
        intros Ht.
        destruct (serialize_fields (<["_id" := VOid oid]> d') (VOid oid)) as (p & S & _).
        { apply lookup_insert_eq. }
        { unfold tasks_iterable in *. rewrite lookup_insert_ne by done.
          unfold d'. rewrite <- insert_union_l, lookup_insert_ne by done. exact Ht. }
        by rewrite S in R.
    + by rewrite (update_project_absent db project_id oid update_data now E P).
  - destruct (soft_delete_as_update_invalid (Some db) project_id update_data now E) as [Eq S].
    by rewrite <- Eq, (S db eq_refl).
Qed.

(** X10.  The delete route answers 500 before the store is connected,
    400 for an id that is not an [ObjectId] and 404 when no project has the
    id, with the store unchanged.  On a stored project it does what the
    gateway's [soft_delete_project] does and never answers 404; when the
    [tasks] of the project can be iterated over it returns the project with
    status "deleted" and [updated_at] from the clock, and every later delete
    of the same id answers 200 again: the project stays stored. *)
Theorem delete_project_contract (st : store) (project_id : string) (now : Z) :
  let response := Routes.delete_project project_id now st in
  match st with
  | None => Routes.status_of response.1 = 500%Z /\ response.2 = None
  | Some db =>
      match ObjectId project_id with
      | None => response = (Raise (HTTPException 400 (VStr "Invalid project ID format")), st)
      | Some oid =>
          match projects db !! oid with
          | None => response = (Raise (HTTPException 404 (VStr "Project not found")), st)
          | Some d =>
              response = AgentMongoDB.soft_delete_project project_id now st
              /\ Routes.status_of response.1 <> 404%Z
              /\ (tasks_iterable d ->
                  exists (p : doc) (db1 : database),
                    response = (Return (VDict p), Some db1)
                    /\ p !! "status" = Some (VStr "deleted")
                    /\ p !! "updated_at" = Some (VTime now)
                    /\ forall later,
                         Routes.status_of
                           (Routes.delete_project project_id later (Some db1)).1 = 200%Z)
          end
      end
  end.
Proof.
  intros response. unfold response, Routes.delete_project. run.
  destruct st as [db|]; [|done].
  destruct (ObjectId project_id) as [oid|] eqn:E.
  - destruct (projects db !! oid) as [d|] eqn:P.
    + rewrite (soft_delete_project_existing db project_id oid d now E P).
      set (d1 := AgentMongoDB.delete_update now ∪ d).
      assert (Lt : forall t (x : doc), (AgentMongoDB.delete_update t ∪ x) !! "tasks" = x !! "tasks").
      { intros t x. unfold AgentMongoDB.delete_update. rewrite lookup_union_r; [done|].
        by rewrite !lookup_insert_ne, lookup_empty. }
      destruct (serialized_outcome (<["_id" := VOid oid]> d1) (VOid oid))
        as [(p & R & T) | (m & R)]; [apply lookup_insert_eq | |]; cbv zeta in R.
      * rewrite R, T. cbn [negb]. split; [done|]. split; [done|].
        intros Ht.
        destruct (serialize_fields (<["_id" := VOid oid]> d1) (VOid oid))
          as (p' & S & _ & _ & _ & D).
        { apply lookup_insert_eq. }
        { unfold tasks_iterable in *. rewrite lookup_insert_ne by done.
          unfold d1. by rewrite Lt. }
        rewrite S in R. injection R as <-.
        exists p', (with_project db oid d1). split; [done|].
        split.
        { rewrite D by done. rewrite lookup_insert_ne by done.
          unfold d1, AgentMongoDB.delete_update. erewrite lookup_union_Some_l; [done|].
          by rewrite lookup_insert_ne, lookup_insert_eq. }
        split.
        { rewrite D by done. rewrite lookup_insert_ne by done.
          unfold d1, AgentMongoDB.delete_update. erewrite lookup_union_Some_l; [done|].
          by rewrite lookup_insert_eq. }
        intros later.
        rewrite (soft_delete_project_existing (with_project db oid d1) project_id oid d1 later E)
          by (simpl; apply lookup_insert_eq).
        destruct (serialize_fields
                    (<["_id" := VOid oid]> (AgentMongoDB.delete_update later ∪ d1)) (VOid oid))
          as (p2 & S2 & A2 & _).
        { apply lookup_insert_eq. }
        { unfold tasks_iterable in *. rewrite lookup_insert_ne by done.
          unfold d1. by rewrite !Lt. }
        rewrite S2. by rewrite (truthy_with_id p2 _ A2).
      * rewrite R. cbn [Routes.invalid_id_400 raise]. split; [done|]. split; [done|].
        intros Ht.
        destruct (serialize_fields (<["_id" := VOid oid]> d1) (VOid oid)) as (p' & S & _).
        { apply lookup_insert_eq. }
        { unfold tasks_iterable in *. rewrite lookup_insert_ne by done.
          unfold d1. by rewrite Lt. }
        by rewrite S in R.
    + by rewrite (soft_delete_project_absent db project_id oid now E P).
  - destruct (soft_delete_as_update_invalid (Some db) project_id ∅ now E) as [_ S].
    by rewrite (S db eq_refl).
Qed.

End ProjectRoutes.

Section ListAndCreate.
Context {libs : Libraries}.

Lemma list_entry_stored (db : database) (oid : string) (d : doc) :
  Routes.list_entry db (<["_id" := VOid oid]> d) = listed db oid d.
Proof.
  unfold Routes.list_entry, listed, dict_get. rewrite lookup_insert_eq.
  cbn [str_value]. by rewrite insert_insert_eq.
Qed.

Lemma find_one_plan_Some (db : database) (pid : string) :
  is_Some (find_one_plan db pid)
  <-> exists row, row ∈ project_plans db /\ row !! "project_id" = Some (VStr pid).
Proof.
  unfold find_one_plan. split.
  - intros [row F]. apply find_some in F as [In M]. exists row.
    split; [by apply list_elem_of_In|]. by apply plan_matches_project_id.
  - intros (row & In & E).
    destruct (List.find (plan_matches pid) (project_plans db)) as [r|] eqn:F; [by eauto|].
    apply list_elem_of_In in In.
    pose proof (find_none _ _ F row In) as N.
    unfold plan_matches in N. rewrite E in N. simpl in N.
    by rewrite String.eqb_refl in N.
Qed.

(** X11.  On a connected store the list route returns, without changing
    the store, one entry for every stored project and nothing else.  An
    entry is the project with its [_id] as a string and with [has_plan],
    which is true exactly when some plan row has that string as its
    [project_id]; the other fields are those of the project. *)
Theorem list_projects_lists_every_project (db : database) :
  exists l : list doc,
    Routes.list_projects (Some db) = (Return l, Some db)
    /\ length l = size (projects db)
    /\ (forall e, e ∈ l <-> exists oid d, projects db !! oid = Some d /\ e = listed db oid d)
    /\ forall oid d,
         listed db oid d !! "_id" = Some (VStr oid)
         /\ (listed db oid d !! "has_plan" = Some (VBool true)
             <-> exists row, row ∈ project_plans db
                             /\ row !! "project_id" = Some (VStr oid))
         /\ forall k, k <> "_id" -> k <> "has_plan" -> listed db oid d !! k = d !! k.
Proof.
  eexists. split; [reflexivity|]. split.
  { unfold find_projects. by rewrite !length_fmap, length_map_to_list. }
  split.
  { intros e. unfold find_projects. rewrite list_elem_of_fmap. split.
    - intros (x & -> & [[oid d] [-> In]]%list_elem_of_fmap).
      apply elem_of_map_to_list in In. exists oid, d. split; [done|].
      apply list_entry_stored.
    - intros (oid & d & P & ->). exists (<["_id" := VOid oid]> d).
      split; [symmetry; apply list_entry_stored|].
      apply list_elem_of_fmap. exists (oid, d). split; [done|].
      by apply elem_of_map_to_list. }
  intros oid d. unfold listed. split.
  { rewrite lookup_insert_ne by done. apply lookup_insert_eq. }
  split.
  { rewrite lookup_insert_eq. rewrite <- find_one_plan_Some. split.
    - intros [= B]. by apply bool_decide_eq_true in B.
    - intros B. by rewrite bool_decide_eq_true_2. }
  intros k N1 N2. by rewrite !lookup_insert_ne.
Qed.

(** X12.  Creating a project and reading it back.  The create route
    returns what the gateway's [create_project] returns.  After it the
    description route finds the project under the returned id, with the
    title and the description given; [get_project] returns the record with
    the same fields save [user] and [tasks], which it does not render; and
    the store has one project more. *)
Theorem create_project_then_read
    (db : database) (project_data : doc) (new_id : string) (now : Z) (title : value) :
  ObjectId new_id = Some new_id ->
  projects db !! new_id = None ->
  project_data !! "_id" = None ->
  project_data !! "title" = Some title ->
  tasks_listed project_data ->
  exists (r g : doc) (db' : database),
    Routes.create_project project_data new_id now (Some db) = (Return r, Some db')
    /\ AgentMongoDB.create_project project_data new_id now (Some db) = (Return r, Some db')
    /\ Routes.get_project_description new_id (Some db')
       = (Return (<["id" := VStr new_id]>
                    (<["title" := title]>
                    (<["description" :=
                         dict_get project_data "description"
                           (VStr "No description available")]> ∅))),
          Some db')
    /\ AgentMongoDB.get_project new_id (Some db') = (Return (VDict g), Some db')
    /\ (forall k, k <> "user" -> k <> "tasks" -> g !! k = r !! k)
    /\ g !! "user" = to_ObjectId <$> project_data !! "user"
    /\ size (projects db') = S (size (projects db)).
Proof.
  intros Eid Fresh Nid Ht Hl.
  destruct (create_project_record db project_data new_id now title Fresh Nid Ht Hl)
    as (r & db' & C & Rid & Rc & Ru & Ruser & Rtasks & Rother & _).
  pose proof C as C'. rewrite create_project_unfold in C'. cbv zeta in C'.
  destruct (inserted_lookup project_data now "title") as (Iu & Ic & Iuser & Itasks & Ititle).
  cbv zeta in Iu, Ic, Iuser, Itasks, Ititle.
  assert (Io : forall k, k <> "updated_at" -> k <> "created_at" -> k <> "user" ->
                         k <> "tasks" ->
               (<["updated_at" := VTime now]>
                  (<["created_at" := VTime now]>
                     match AgentMongoDB.convert_tasks project_data !! "user" with
                     | Some user =>
                         <["user" := to_ObjectId user]> (AgentMongoDB.convert_tasks project_data)
                     | None => AgentMongoDB.convert_tasks project_data
                     end) : doc) !! k = project_data !! k).
  { intros k. destruct (inserted_lookup project_data now k) as (_ & _ & _ & _ & O). exact O. }
  set (inserted := <["updated_at" := VTime now]> _) in *.
  injection C' as _ <-.
  assert (P : projects (insert_one_project db new_id inserted) !! new_id = Some inserted)
    by (simpl; apply lookup_insert_eq).
  exists r, (<["_id" := VStr new_id]> inserted), (insert_one_project db new_id inserted).
  split.
  { unfold Routes.create_project. run. by rewrite C, Rid. }
  split; [done|]. split.
  { rewrite (get_project_description_existing _ new_id new_id inserted Eid P).
    unfold description_of, dict_get. by rewrite !Io, Ht by done. }
  split.
  { by destruct (get_project_present _ new_id new_id inserted Eid P) as [_ ->]. }
  split.
  { intros k N1 N2.
    destruct (decide (k = "_id")) as [->|Ni]; [by rewrite lookup_insert_eq, Rid|].
    rewrite lookup_insert_ne by done.
    destruct (decide (k = "created_at")) as [->|Nc]; [by rewrite Ic, Rc|].
    destruct (decide (k = "updated_at")) as [->|Nu]; [by rewrite Iu, Ru|].
    by rewrite Io, Rother. }
  split; [by rewrite lookup_insert_ne|].
  simpl. by apply map_size_insert_None.
Qed.

(** X13.  A plan is stored under the project id as it was spelled in
    the request, while the list route looks for the plan under the rendering
    of the stored [ObjectId].  For a project without a plan, after a plan is
    stored under a spelling of its id, the list shows [has_plan] true exactly
    when the spelling is the rendering. *)
Theorem has_plan_follows_id_spelling
    (db : database) (project_id oid : string) (d plan : doc) (now : Z) :
  ObjectId project_id = Some oid ->
  projects db !! oid = Some d ->
  find_one_plan db oid = None ->
  plan !! "project_id" = None ->
  exists (stored : doc) (db' : database) (l : list doc),
    AgentMongoDB.store_project_plan project_id (VDict plan) now (Some db)
    = (Return stored, Some db')
    /\ is_Some (find_one_plan db' project_id)
    /\ Routes.list_projects (Some db') = (Return l, Some db')
    /\ listed db' oid d ∈ l
    /\ listed db' oid d !! "has_plan" = Some (VBool (bool_decide (project_id = oid))).
Proof.
  intros E P Np Nk.
  set (db' := update_one_plan db project_id (stamped plan now)).
  assert (Ns : stamped plan now !! "project_id" = None) by (by rewrite stamped_other).
  assert (F : is_Some (find_one_plan db' project_id)).
  { unfold find_one_plan, db', update_one_plan. cbn [project_plans].
    rewrite (find_upsert_rows _ _ _ Ns). eauto. }
  exists (stamped plan now), db', (Routes.list_entry db' <$> find_projects db').
  split; [apply store_project_plan_connected|]. split; [done|]. split; [done|]. split.
  { apply list_elem_of_fmap. exists (<["_id" := VOid oid]> d).
    split; [symmetry; apply list_entry_stored|].
    unfold find_projects. apply list_elem_of_fmap. exists (oid, d). split; [done|].
    by apply elem_of_map_to_list. }
  unfold listed. rewrite lookup_insert_eq. do 2 f_equal.
  destruct (decide (project_id = oid)) as [->|N].
  - rewrite bool_decide_eq_true_2 by done. by rewrite bool_decide_eq_true_2.
  - rewrite (bool_decide_eq_false_2 (project_id = oid)) by done.
    apply bool_decide_eq_false_2.
    unfold find_one_plan, db', update_one_plan. cbn [project_plans].
    destruct (rows_of_upsert_other project_id oid (stamped plan now) (project_plans db) Ns N)
      as [_ ->].
    unfold find_one_plan in Np. rewrite Np. by intros [? [=]].
Qed.

End ListAndCreate.

(** X12 on the example request on an empty store. *)
Lemma create_project_then_read_witness :
  exists (r : doc) (db' : database),
    Routes.create_project (libs := Reference.libraries) example_request example_oid 3
      (Some empty_database)
    = (Return r, Some db')
    /\ Routes.get_project_description (libs := Reference.libraries) example_oid (Some db')
       = (Return (<["id" := VStr example_oid]>
                    (<["title" := VStr "Website Redesign"]>
                    (<["description" := VStr "A new site"]> ∅))),
          Some db')
    /\ size (projects db') = 1%nat.
Proof.
  destruct (create_project_then_read (libs := Reference.libraries)
              empty_database example_request example_oid 3 (VStr "Website Redesign"))
    as (r & g & db' & E & _ & D & _ & _ & _ & S);
    [reflexivity | reflexivity | reflexivity | reflexivity | |].
  { unfold tasks_listed. vm_compute. eauto. }
  exists r, db'. split; [exact E|]. split; [exact D|exact S].
Defined.

(** X13 on a plan stored under the example id written in capitals. *)
Lemma has_plan_follows_id_spelling_witness :
  let db := with_project empty_database example_oid example_project in
  exists (stored : doc) (db' : database) (l : list doc),
    AgentMongoDB.store_project_plan example_oid_capitals (VDict example_plan) 5 (Some db)
    = (Return stored, Some db')
    /\ Routes.list_projects (libs := Reference.libraries) (Some db') = (Return l, Some db')
    /\ listed db' example_oid example_project ∈ l
    /\ listed db' example_oid example_project !! "has_plan" = Some (VBool false).
Proof.
  destruct (has_plan_follows_id_spelling (libs := Reference.libraries)
              (with_project empty_database example_oid example_project)
              example_oid_capitals example_oid example_project example_plan 5)
    as (stored & db' & l & E & _ & L & In & H);
    [reflexivity | reflexivity | reflexivity | reflexivity |].
  exists stored, db', l. split; [exact E|]. split; [exact L|]. split; [exact In|exact H].
Defined.

(** ** The refinement route *)

Section RefineRoute.
Context {libs : Libraries}.

Lemma found_plan_truthy (db : database) (pid : string) (row : doc) :
  find_one_plan db pid = Some row -> py_truthy (VDict row) = true.
Proof.
  intros F. unfold find_one_plan in F. apply find_some in F as [_ M].
  apply plan_matches_project_id in M. simpl. apply negb_true_iff, bool_decide_eq_false.
  intros ->. by rewrite lookup_empty in M.
Qed.

(** X14.  The refinement route on a connected store answers 400 for an
    id that is not an [ObjectId] and 404 when no project has the id, whether
    or not a plan is stored for it, without calling the refiner or changing
    the store.  For a stored project it calls the refiner once, on the
    [high_level_tasks] of the stored plan, or on the single task
    "Project Setup" made from the project's title when there is no plan or
    the plan has no such field.  The refiner's result is returned unless it
    has an [error] field, which gives 500 with the result's [message]; an
    exception of the refiner gives 500 unless it is an [HTTPException]. *)
Theorem refine_route_contract
    (planner : string -> value -> M doc) (db : database) (project_id : string) :
  let response := Routes.refine_project_tasks planner project_id (Some db) in
  match ObjectId project_id with
  | None =>
      response = (Raise (HTTPException 400 (VStr "Invalid project ID format")), Some db)
  | Some oid =>
      match projects db !! oid with
      | None =>
          response
          = (Raise (HTTPException 404
                      (VStr ("No project found with ID: " ++ project_id
                             ++ ". Please create a project first."))), Some db)
      | Some d =>
          let default_tasks :=
            VList [VDict (<["task_name" := VStr "Project Setup"]>
                            (<["description" :=
                                 VStr ("Initial setup for "
                                       ++ str_value (dict_get d "title" (VStr "the project")))]>
                            (<["dependencies" := VList []]> ∅)))] in
          let tasks :=
            match find_one_plan db project_id with
            | Some plan => default default_tasks (plan !! "high_level_tasks")
            | None => default_tasks
            end in
          response = refine_answer (planner project_id tasks (Some db))
      end
  end.
Proof.
  intros response. unfold response, Routes.refine_project_tasks. run.
  destruct (ObjectId project_id) as [oid|] eqn:E; [|done].
  destruct (projects db !! oid) as [d|] eqn:P.
  2:{ by rewrite (find_one_project_None _ _ P). }
  rewrite (find_one_project_Some _ _ _ P), truthy_insert. cbn [negb]. cbv zeta.
  assert (I : Routes.initial_tasks (<["_id" := VOid oid]> d)
              = VList [VDict (<["task_name" := VStr "Project Setup"]>
                            (<["description" :=
                                 VStr ("Initial setup for "
                                       ++ str_value (dict_get d "title" (VStr "the project")))]>
                            (<["dependencies" := VList []]> ∅)))]).
  { unfold Routes.initial_tasks, dict_get. by rewrite lookup_insert_ne. }
  rewrite I.
  set (tasks := match find_one_plan db project_id with
                | Some existing_plan =>
                    if py_truthy (VDict existing_plan) then _ else _
                | None => _
                end).
  set (tasks' := match find_one_plan db project_id with
                 | Some plan => default _ (plan !! "high_level_tasks")
                 | None => _
                 end).
  assert (Et : tasks = tasks').
  { unfold tasks, tasks'. destruct (find_one_plan db project_id) as [row|] eqn:F; [|done].
    rewrite (found_plan_truthy db project_id row F). by destruct (row !! "high_level_tasks"). }
  rewrite Et. unfold refine_answer.
  destruct (planner project_id tasks' (Some db)) as [[refined|e] st'].
  - by destruct (bool_decide _).
  - by destruct e.
Qed.

(** X15.  Before the store is connected no handler calls its planner
    or connects the store.  The plan, refinement and description routes raise
    the "Database connection not initialized" error itself; the list, delete
    and update routes raise a 500 whose detail is the text of that
    exception; the create route wraps that once more.  The update route
    answers 400 on an empty update even then. *)
Theorem routes_before_connection
    (plan_planner : doc -> M doc) (refine_planner : string -> value -> M doc)
    (project_id new_id : string) (data : doc) (now : Z) :
  let wrapped := HTTPException 500 (VStr (py_str db_not_initialized)) in
  Routes.generate_plan_for_existing_project plan_planner project_id now None
  = (Raise db_not_initialized, None)
  /\ Routes.refine_project_tasks refine_planner project_id None
     = (Raise db_not_initialized, None)
  /\ Routes.get_project_description project_id None = (Raise db_not_initialized, None)
  /\ Routes.list_projects None = (Raise wrapped, None)
  /\ Routes.create_project data new_id now None
     = (Raise (HTTPException 500 (VStr (py_str wrapped))), None)
  /\ Routes.delete_project project_id now None = (Raise wrapped, None)
  /\ Routes.update_project_details project_id data now None
     = (Raise (if bool_decide (data = ∅)
               then HTTPException 400 (VStr "No update data provided")
               else wrapped), None).
Proof.
  repeat split; try done.
  unfold Routes.update_project_details. run. cbn [py_truthy].
  by destruct (bool_decide (data = ∅)).
Qed.

End RefineRoute.

(** ** The helpers of the planner *)

Lemma same_database (db : database) :
  {| projects := projects db; project_plans := project_plans db |} = db.
Proof. by destruct db. Qed.

Lemma update_rows_no_match (pid : string) (upd : doc) (rows : list doc) :
  List.find (plan_matches pid) rows = None -> update_rows pid upd rows = rows.
Proof.
  induction rows as [|d rows IH]; [done|]. simpl.
  destruct (plan_matches pid d); [done|]. intros F. by rewrite IH.
Qed.

Lemma matched_count_find (pid : string) (rows : list doc) :
  matched_count pid rows = match List.find (plan_matches pid) rows with
                           | Some _ => 1%nat
                           | None => 0%nat
                           end.
Proof.
  unfold matched_count. induction rows as [|d rows IH]; [done|]. simpl.
  by destruct (plan_matches pid d).
Qed.

Lemma find_update_rows (pid : string) (upd old : doc) (rows : list doc) :
  List.find (plan_matches pid) rows = Some old ->
  plan_matches pid (upd ∪ old) = true ->
  List.find (plan_matches pid) (update_rows pid upd rows) = Some (upd ∪ old)
  /\ length (update_rows pid upd rows) = length rows.
Proof.
  intros F M. induction rows as [|d rows IH]; [done|]. simpl in *.
  destruct (plan_matches pid d) eqn:E.
  - injection F as ->. simpl. by rewrite M.
  - simpl. rewrite E. destruct (IH F) as [-> ->]. done.
Qed.

Lemma update_project_plan_found (db : database) (project_id : string) (plan old : doc) :
  find_one_plan db project_id = Some old ->
  exists db',
    Planner._update_project_plan project_id plan (Some db) = (Return tt, Some db')
    /\ projects db' = projects db
    /\ length (project_plans db') = length (project_plans db)
    /\ (plan !! "project_id" = None ->
        find_one_plan db' project_id
        = Some ((plan ∪ {["project_id" := VStr project_id]}) ∪ old)).
Proof.
  unfold Planner._update_project_plan, find_one_plan. run. intros F.
  rewrite matched_count_find, F.
  simpl. eexists. split; [reflexivity|]. split; [done|].
  assert (Mo : plan_matches project_id old = true) by (by apply find_some in F as [_ F]).
  cbn [project_plans]. split.
  - clear Mo. revert F. induction (project_plans db) as [|d rows IH]; [done|]. simpl.
    destruct (plan_matches project_id d); [done|]. intros F. simpl. by rewrite IH.
  - intros N. apply find_update_rows; [done|].
    unfold plan_matches. erewrite lookup_union_Some_l.
    2:{ rewrite lookup_union_r by done. apply lookup_singleton_eq. }
    simpl. apply String.eqb_refl.
Qed.

Lemma update_project_plan_missing (db : database) (project_id : string) (plan : doc) :
  find_one_plan db project_id = None ->
  Planner._update_project_plan project_id plan (Some db)
  = (Raise (ValueError ("Project plan not found with ID: " ++ project_id)), Some db).
Proof.
  unfold Planner._update_project_plan, find_one_plan. run. intros F.
  rewrite matched_count_find, F. simpl.
  by rewrite (update_rows_no_match _ _ _ F), same_database.
Qed.

(** X16.  [_update_project_plan] does not insert.  Without a row for
    the project it raises [ValueError] and the store is unchanged.  With a
    row it returns, the projects and the number of rows are unchanged, and
    for a plan without a [project_id] of its own the row found afterwards is
    the old row overwritten with the plan's fields. *)
Theorem update_project_plan_needs_a_row (db : database) (project_id : string) (plan : doc) :
  match find_one_plan db project_id with
  | None =>
      Planner._update_project_plan project_id plan (Some db)
      = (Raise (ValueError ("Project plan not found with ID: " ++ project_id)), Some db)
  | Some old =>
      exists db',
        Planner._update_project_plan project_id plan (Some db) = (Return tt, Some db')
        /\ projects db' = projects db
        /\ length (project_plans db') = length (project_plans db)
        /\ (plan !! "project_id" = None ->
            find_one_plan db' project_id
            = Some ((plan ∪ {["project_id" := VStr project_id]}) ∪ old))
  end.
Proof.
  destruct (find_one_plan db project_id) as [old|] eqn:F.
  - by apply update_project_plan_found.
  - by apply update_project_plan_missing.
Qed.

(** X17.  After [_store_project_plan] a project has a row, so an
    [_update_project_plan] that follows succeeds.  For plans without a
    [project_id] of their own the row is then the second plan over the first
    over whatever row the project had; the projects are untouched. *)
Theorem store_then_update_project_plan
    (db : database) (project_id : string) (plan plan2 : doc) :
  plan !! "project_id" = None ->
  plan2 !! "project_id" = None ->
  let key : doc := {["project_id" := VStr project_id]} in
  let old := default key (find_one_plan db project_id) in
  exists db1 db2 : database,
    Planner._store_project_plan project_id plan (Some db) = (Return tt, Some db1)
    /\ find_one_plan db1 project_id = Some ((plan ∪ key) ∪ old)
    /\ Planner._update_project_plan project_id plan2 (Some db1) = (Return tt, Some db2)
    /\ find_one_plan db2 project_id = Some ((plan2 ∪ key) ∪ ((plan ∪ key) ∪ old))
    /\ projects db2 = projects db.
Proof.
  intros N N2 key old.
  set (upd := plan ∪ key).
  assert (K : upd !! "project_id" = Some (VStr project_id)).
  { unfold upd, key. rewrite lookup_union_r by done. apply lookup_singleton_eq. }
  set (db1 := update_one_plan db project_id upd).
  assert (F : find_one_plan db1 project_id = Some (upd ∪ old)).
  { unfold find_one_plan, db1, update_one_plan. cbn [project_plans].
    by apply find_upsert_rows_keyed. }
  destruct (update_project_plan_found db1 project_id plan2 _ F) as (db2 & U & P & _ & R).
  exists db1, db2. split; [done|]. split; [exact F|]. split; [exact U|].
  split; [by apply R|]. by rewrite P.
Qed.

(** X17 on an empty store. *)
Lemma store_then_update_project_plan_witness :
  exists db1 db2 : database,
    Planner._store_project_plan example_oid example_plan (Some empty_database)
    = (Return tt, Some db1)
    /\ Planner._update_project_plan example_oid (<["project_summary" := VStr "Shop"]> ∅)
         (Some db1)
       = (Return tt, Some db2)
    /\ projects db2 = ∅.
Proof.
  destruct (store_then_update_project_plan empty_database example_oid example_plan
              (<["project_summary" := VStr "Shop"]> ∅))
    as (db1 & db2 & S & _ & U & _ & P); [reflexivity | reflexivity |].
  exists db1, db2. split; [exact S|]. split; [exact U|exact P].
Defined.

(** ** Start-up: the planner agent and the connection *)

Section StartUp.
Context {libs : Libraries}.

Lemma configured_dec (v : option string) :
  match v with Some s => negb (s =? "") | None => false end = true <-> configured v.
Proof.
  unfold configured. destruct v as [s|].
  - rewrite negb_true_iff. split.
    + intros E. exists s. split; [done|]. intros ->. done.
    + intros (s' & [= <-] & N). by apply String.eqb_neq.
  - split; [done|]. by intros (s & [=] & _).
Qed.

(** X18.  [get_planner_agent] gives an agent only when the three
    environment variables are set to non-empty values and the client can be
    built.  Otherwise it raises a 500; when a variable is unset or empty the
    detail is the "Missing required Azure OpenAI configuration" message.  The
    detail is never "Failed to initialize OpenAI configuration": the
    constructor raises nothing but [ValueError]. *)
Theorem get_planner_agent_contract
    (api_key endpoint deployment : option string) (client : outcome unit) :
  match Routes.get_planner_agent api_key endpoint deployment client with
  | Return _ =>
      configured api_key /\ configured endpoint /\ configured deployment
      /\ client = Return tt
  | Raise e =>
      exists detail, e = HTTPException 500 (VStr detail)
      /\ detail <> "Failed to initialize OpenAI configuration"
      /\ ((configured api_key /\ configured endpoint /\ configured deployment)
          \/ detail = "Missing required Azure OpenAI configuration. Check "
                      ++ "AZURE_OPENAI_API_KEY, AZURE_API_ENDPOINT, and "
                      ++ "AZURE_DEPLOYMENT_NAME environment variables.")
  end.
Proof.
  unfold Routes.get_planner_agent, Planner.__init__.
  pose proof (configured_dec api_key) as Ka.
  pose proof (configured_dec endpoint) as Ke.
  pose proof (configured_dec deployment) as Kd.
  destruct (match api_key with Some s => _ | None => _ end);
    destruct (match endpoint with Some s => _ | None => _ end);
    destruct (match deployment with Some s => _ | None => _ end); cbn [andb negb].
  1:{ assert (C : configured api_key /\ configured endpoint /\ configured deployment).
      { split; [by apply Ka|]. split; [by apply Ke|by apply Kd]. }
      destruct client as [[]|e]; [by destruct C as (? & ? & ?)|].
      eexists. split; [reflexivity|]. split; [|by left].
      cbn [py_str]. app_simpl. intros E. simplify_eq. }
  all: eexists; (split; [reflexivity|]); split; [by vm_compute|right; reflexivity].
Qed.

Lemma connect_attempt_ok (server : database) (ping count : nat -> outcome unit)
    (attempt : nat) (rest : list nat) (st : store) :
  ping attempt = Return tt -> count attempt = Return tt ->
  AgentMongoDB.connect_attempts server ping count (attempt :: rest) st
  = (Return 0%nat, Some server).
Proof. intros P C. cbn [AgentMongoDB.connect_attempts]. run. by rewrite P, C. Qed.

Lemma connect_attempt_ping_failed (server : database) (ping count : nat -> outcome unit)
    (attempt : nat) (rest : list nat) (st : store) (e : exn) :
  ping attempt = Raise e ->
  AgentMongoDB.connect_attempts server ping count (attempt :: rest) st
  = if (attempt =? 2)%nat then (Raise e, st)
    else match AgentMongoDB.connect_attempts server ping count rest st with
         | (Return sleeps, st') => (Return (S sleeps), st')
         | (Raise e', st') => (Raise e', st')
         end.
Proof.
  intros P. cbn [AgentMongoDB.connect_attempts]. run. rewrite P.
  destruct (attempt =? 2)%nat; [done|].
  by destruct (AgentMongoDB.connect_attempts server ping count rest st) as [[]].
Qed.

Lemma connect_attempt_count_failed (server : database) (ping count : nat -> outcome unit)
    (attempt : nat) (rest : list nat) (st : store) (e : exn) :
  ping attempt = Return tt -> count attempt = Raise e ->
  AgentMongoDB.connect_attempts server ping count (attempt :: rest) st
  = if (attempt =? 2)%nat then (Raise e, Some server)
    else match AgentMongoDB.connect_attempts server ping count rest (Some server) with
         | (Return sleeps, st') => (Return (S sleeps), st')
         | (Raise e', st') => (Raise e', st')
         end.
Proof.
  intros P C. cbn [AgentMongoDB.connect_attempts]. run. rewrite P, C.
  destruct (attempt =? 2)%nat; [done|].
  by destruct (AgentMongoDB.connect_attempts server ping count rest (Some server)) as [[]].
Qed.

Ltac failed_attempt :=
  unfold attempt_failed; first [left; congruence | right; congruence].

Ltac each_attempt :=
  let k := fresh "k" in
  let Hk := fresh "Hk" in
  intros k Hk; destruct k as [|[|[|k]]]; try lia; failed_attempt.

(** X19.  [connect_to_mongo] makes at most three attempts.  When it
    returns, the client was built, the store is connected, the attempt that
    succeeded is the first one whose ping and counts both succeeded, and it
    slept one second for each attempt before that one.  When it raises, the
    exception is a 500 whose detail starts with "Failed to connect to
    MongoDB: ", and the client could not be built or all three attempts
    failed; the handle is left set if some ping had succeeded. *)
Theorem connect_to_mongo_contract
    (server : database) (client : outcome unit) (ping count : nat -> outcome unit)
    (st : store) :
  let answered k := match ping k with Return _ => true | Raise _ => false end in
  match AgentMongoDB.connect_to_mongo server client ping count st with
  | (Return sleeps, st') =>
      client = Return tt /\ (sleeps <= 2)%nat /\ st' = Some server
      /\ ping sleeps = Return tt /\ count sleeps = Return tt
      /\ forall k, (k < sleeps)%nat -> attempt_failed ping count k
  | (Raise e, st') =>
      (exists m, e = HTTPException 500 (VStr ("Failed to connect to MongoDB: " ++ m)))
      /\ (client = Return tt -> forall k, (k <= 2)%nat -> attempt_failed ping count k)
      /\ st' = match client with
               | Return _ => if existsb answered (seq 0 3) then Some server else st
               | Raise _ => st
               end
  end.
Proof.
  intros answered. unfold answered, AgentMongoDB.connect_to_mongo. run.
  destruct client as [[]|ec]; cbn [lift].
  2:{ split; [by eexists|]. done. }
  cbn [seq existsb].
  destruct (ping 0%nat) as [[]|e0] eqn:P0; [destruct (count 0%nat) as [[]|f0] eqn:C0|].
  { rewrite connect_attempt_ok by done. repeat split; try done; try lia. }
  all: destruct (ping 1%nat) as [[]|e1] eqn:P1; [destruct (count 1%nat) as [[]|f1] eqn:C1|].
  all: destruct (ping 2%nat) as [[]|e2] eqn:P2; [destruct (count 2%nat) as [[]|f2] eqn:C2|].
  all: repeat first
         [ rewrite connect_attempt_ok by done
         | erewrite connect_attempt_count_failed by done
         | erewrite connect_attempt_ping_failed by done ];
       cbn [Nat.eqb orb].
  all: try (repeat split; try done; try lia; each_attempt).
  all: split; [by eexists|]; split; [intros _; each_attempt|done].
Qed.

End StartUp.

(** ** The pipelines and the store *)

Lemma wait_exponential_bounds (attempt_number : nat) :
  (4 <= wait_exponential attempt_number <= 60)%Z
  /\ ((attempt_number <= 3)%nat -> wait_exponential attempt_number = 4%Z).
Proof.
  unfold wait_exponential. split; [lia|]. intros H.
  destruct attempt_number as [|[|[|[|n]]]]; [done..|lia].
Qed.

(** X20.  With at most three attempts the exponential wait never
    leaves its floor: the wrapper sleeps four seconds after every failed
    call but the last, so at most twice.  The wait is between 4 and 60
    seconds for any attempt number. *)
Theorem call_with_retry_sleeps_four_seconds (call : nat -> outcome string) :
  let run := call_with_retry call in
  run_sleeps run = repeat 4%Z (run_calls run - 1)
  /\ (length (run_sleeps run) <= 2)%nat
  /\ (forall n, (4 <= wait_exponential n <= 60)%Z).
Proof.
  intros run. unfold run, call_with_retry.
  change (max_attempt_number - 1)%nat with 2%nat.
  pose proof (attempt_loop_calls call 2 1) as B.
  pose proof (attempt_loop_sleeps call 2 1) as S. cbv zeta in S.
  assert (E : run_sleeps (attempt_loop call 2 1)
              = repeat 4%Z (run_calls (attempt_loop call 2 1) - 1)).
  { rewrite S. destruct (run_calls (attempt_loop call 2 1)) as [|[|[|[|n]]]]; try done. lia. }
  split; [exact E|]. split.
  - rewrite E, repeat_length. lia.
  - intros n. apply wait_exponential_bounds.
Qed.

Lemma union_absorb (a b : doc) :
  (forall k, is_Some (b !! k) -> is_Some (a !! k)) -> a ∪ b = a.
Proof.
  intros H. apply map_eq. intros k. rewrite lookup_union.
  destruct (a !! k) as [x|] eqn:A; destruct (b !! k) as [y|] eqn:B; try done.
  destruct (H k) as [z Hz]; [by rewrite B|]. congruence.
Qed.

Lemma plan_matches_keyed (pid other : string) (d : doc) :
  d !! "project_id" = Some (VStr pid) -> pid <> other -> plan_matches other d = false.
Proof.
  intros K N. unfold plan_matches. rewrite K. simpl.
  apply String.eqb_neq. congruence.
Qed.

Lemma upsert_rows_keyed_other (pid other : string) (upd : doc) (rows : list doc) :
  upd !! "project_id" = Some (VStr pid) -> pid <> other ->
  List.find (plan_matches other) (upsert_rows pid upd rows)
  = List.find (plan_matches other) rows.
Proof.
  intros K N. induction rows as [|d rows IH]; simpl.
  - rewrite (plan_matches_keyed pid other); [done| |done].
    by apply lookup_union_Some_l.
  - destruct (plan_matches pid d) eqn:E; simpl.
    + rewrite (plan_matches_keyed pid other (upd ∪ d)); [| |done].
      * by rewrite (plan_matches_other pid other d).
      * by apply lookup_union_Some_l.
    + by rewrite IH.
Qed.

Lemma upsert_rows_length (pid : string) (upd : doc) (rows : list doc) :
  length (upsert_rows pid upd rows)
  = (length rows + match List.find (plan_matches pid) rows with
                   | Some _ => 0
                   | None => 1
                   end)%nat.
Proof.
  induction rows as [|d rows IH]; simpl; [done|].
  destruct (plan_matches pid d); simpl; [lia|]. by rewrite IH.
Qed.

Section PipelinesAndStore.
Context {libs : Libraries}.

(** X21.  On a connected store [generate_project_plan] either returns
    a failure object and leaves the store as it was, or the project details
    have an [_id], the parsed plan has the four required fields, and the
    function returns the plan with its timestamps after one upsert of it
    under the string of that [_id]. *)
Theorem generate_project_plan_writes_on_success_only
    (db : database) (project_details : doc) (llm : Planner.chain) (now : Z) :
  (exists e message,
      Planner.generate_project_plan project_details llm now (Some db)
      = (Return (Planner.error_result e message), Some db))
  \/ (exists (plan : doc) (i : value),
        project_details !! "_id" = Some i
        /\ (forall f, f ∈ Planner.required_fields -> is_Some (plan !! f))
        /\ Planner.generate_project_plan project_details llm now (Some db)
           = (Return (stamped plan now),
              Some (update_one_plan db (str_value i) (stamped plan now)))).
Proof.
  rewrite generate_project_plan_unfold.
  destruct (Planner.build_context project_details) as [context|e]; [|left; by eauto].
  destruct (run_result (call_with_retry (llm (Planner.PlanPrompt context)))) as [r|e] eqn:C.
  2:{ rewrite (generate_body_provider_error _ _ _ _ _ _ C). left. by eauto. }
  rewrite (generate_body_parsed _ _ _ _ _ _ C).
  destruct (Planner.parse_plan_response r) as [v|e]; [|left; by eauto].
  destruct (Planner.validate_required_fields v) as [[]|e] eqn:V; [|left; by eauto].
  destruct (project_details !! "_id") as [i|]; [|left; by eauto].
  destruct v as [| | | | | | | |plan];
    try (rewrite store_project_plan_not_a_dict by done; left; by eauto).
  rewrite (proj1 (store_project_plan_connected _ _ _ _)).
  right. exists plan, i. split; [done|]. split; [|done].
  intros f Hf. unfold Planner.validate_required_fields in V.
  rewrite missing_fields_dict in V.
  destruct (filter _ _) as [|f' rest] eqn:F; [|done].
  destruct (plan !! f) as [x|] eqn:Ef; [by eauto|].
  assert (In : f ∈ filter (fun f => plan !! f = None) Planner.required_fields).
  { by apply list_elem_of_filter. }
  rewrite F in In. by apply elem_of_nil in In.
Qed.

(** X22.  On a connected store [refine_project_tasks] either returns
    the failure object and leaves the store as it was, or returns the success
    object after one upsert.  The upsert leaves the projects and the rows of
    the other project ids alone.  The row of the project is its old row with
    [high_level_tasks] and [updated_at] replaced, so [created_at] and every
    other field are kept; a project without a row gets one made of the id,
    the two clock readings taken at the start, the refined tasks and the
    time of the refinement. *)
Theorem refine_project_tasks_store_effect
    (db : database) (project_id : string) (tasks : value) (llm : Planner.chain)
    (t_created t_updated t_refined : Z) :
  let run := Planner.refine_project_tasks project_id tasks llm t_created t_updated t_refined
               (Some db) in
  let fresh : doc :=
    <["updated_at" := VTime t_updated]>
      (<["created_at" := VTime t_created]>
      (<["high_level_tasks" := tasks]>
      (<["project_id" := VStr project_id]> ∅))) in
  (exists e,
      run = (Return (Planner.error_result e "Failed to refine project tasks."), Some db))
  \/ (exists (refined_tasks : value) (db' : database),
        run = (Return (refine_result project_id tasks refined_tasks), Some db')
        /\ projects db' = projects db
        /\ find_one_plan db' project_id
           = Some (<["updated_at" := VTime t_refined]>
                     (<["high_level_tasks" := refined_tasks]>
                        (default fresh (find_one_plan db project_id))))
        /\ length (project_plans db')
           = (length (project_plans db)
              + match find_one_plan db project_id with Some _ => 0 | None => 1 end)%nat
        /\ forall other, other <> project_id ->
             find_one_plan db' other = find_one_plan db other).
Proof.
  intros run fresh. unfold run. rewrite refine_project_tasks_unfold.
  unfold Planner.refine_body. run. fold fresh.
  destruct (json_serializable tasks); cbn [negb]; [|left; by eauto].
  destruct (run_result (call_with_retry (llm (Planner.RefinePrompt tasks)))) as [r|e];
    cbn [lift]; [|left; by eauto].
  destruct (json_loads (Planner.clean_response "[" "]" r)) as [refined|]; [|left; by eauto].
  right. exists refined. eexists. split; [reflexivity|]. split; [done|].
  set (base := match find_one_plan db project_id with
               | Some found => if py_truthy (VDict found) then found else fresh
               | None => fresh
               end).
  assert (Eb : base = default fresh (find_one_plan db project_id)).
  { unfold base. destruct (find_one_plan db project_id) as [found|] eqn:F; [|done].
    by rewrite (found_plan_truthy db project_id found F). }
  assert (B : base !! "project_id" = Some (VStr project_id)).
  { rewrite Eb. unfold find_one_plan.
    destruct (List.find _ _) as [found|] eqn:F; simpl.
    - apply plan_matches_project_id. by apply find_some in F as [_ F].
    - unfold fresh. rewrite !lookup_insert_ne by done. apply lookup_insert_eq. }
  set (upd := <["updated_at" := VTime t_refined]> (<["high_level_tasks" := refined]> base)).
  assert (K : upd !! "project_id" = Some (VStr project_id)).
  { unfold upd. by rewrite !lookup_insert_ne by done. }
  rewrite <- Eb. fold upd.
  unfold find_one_plan in *. unfold update_one_plan. cbn [project_plans].
  split; [|split].
  - rewrite (find_upsert_rows_keyed _ _ _ K). f_equal.
    apply union_absorb. intros k Hk.
    destruct (decide (k = "updated_at")) as [->|N1].
    { unfold upd. rewrite lookup_insert_eq. by eauto. }
    destruct (decide (k = "high_level_tasks")) as [->|N2].
    { unfold upd. rewrite lookup_insert_ne by done. rewrite lookup_insert_eq. by eauto. }
    unfold upd. rewrite !lookup_insert_ne by done.
    rewrite Eb.
    destruct (List.find _ _) as [found|]; [done|]. simpl in *.
    destruct (decide (k = "project_id")) as [->|N3]; [|by rewrite lookup_singleton_ne in Hk].
    unfold fresh. rewrite !lookup_insert_ne by done. rewrite lookup_insert_eq. by eauto.
  - apply upsert_rows_length.
  - intros other N. apply upsert_rows_keyed_other; [done|congruence].
Qed.

End PipelinesAndStore.

(** ** The plan route, once a plan is stored *)

Section PlanRouteStored.
Context {libs : Libraries}.

Lemma plan_route_stored (planner : doc -> M doc) (db : database)
    (project_id oid : string) (t_store : Z) (row : doc) :
  ObjectId project_id = Some oid ->
  find_one_plan db project_id = Some row ->
  Routes.generate_plan_for_existing_project planner project_id t_store (Some db)
  = (Return (delete "_id" row), Some db).
Proof.
  intros E F. unfold Routes.generate_plan_for_existing_project. run.
  by rewrite E, F, (found_plan_truthy db project_id row F).
Qed.

Lemma plan_route_generated (planner : doc -> M doc) (db : database)
    (project_id oid : string) (t_store : Z) (plan : doc) (st1 : store) :
  ObjectId project_id = Some oid ->
  find_one_plan db project_id = None ->
  Routes.generate_plan_for_existing_project planner project_id t_store (Some db)
  = (Return plan, st1) ->
  exists (db0 : database) (p : doc),
    plan = stamped (Routes.minimum_plan p) t_store
    /\ st1 = Some (update_one_plan db0 project_id plan).
Proof.
  intros E F. unfold Routes.generate_plan_for_existing_project. run. rewrite E, F.
  destruct (planner _ (Some db)) as [[p|e] st0]; [|by destruct e].
  destruct (bool_decide (is_Some (p !! "error"))); [done|].
  destruct st0 as [db0|]; [|done].
  rewrite (proj2 (store_project_plan_connected _ _ _ _)).
  intros [= <- <-]. by eauto.
Qed.

(** X23.  Once the plan route has returned a plan for an id, the store
    is connected and holds a row for the id with the project id and at least
    the fields returned; every later request for the id returns that row,
    without calling the planner and without changing the store. *)
Theorem plan_route_answers_from_the_store
    (planner planner' : doc -> M doc) (db : database) (project_id oid : string)
    (t_store t_store' : Z) (plan : doc) (st1 : store) :
  ObjectId project_id = Some oid ->
  Routes.generate_plan_for_existing_project planner project_id t_store (Some db)
  = (Return plan, st1) ->
  exists (db1 : database) (row : doc),
    st1 = Some db1
    /\ find_one_plan db1 project_id = Some row
    /\ Routes.generate_plan_for_existing_project planner' project_id t_store' (Some db1)
       = (Return (delete "_id" row), Some db1)
    /\ row !! "project_id" = Some (VStr project_id)
    /\ (forall k v, plan !! k = Some v -> row !! k = Some v).
Proof.
  intros E R.
  destruct (find_one_plan db project_id) as [old|] eqn:F.
  - rewrite (plan_route_stored planner db project_id oid t_store old E F) in R.
    injection R as <- <-. exists db, old. split; [done|]. split; [done|].
    split; [by apply (plan_route_stored _ _ _ oid)|]. split.
    + unfold find_one_plan in F. apply find_some in F as [_ F].
      by apply plan_matches_project_id.
    + intros k v Hk. apply lookup_delete_Some in Hk as [_ Hk]. done.
  - destruct (plan_route_generated planner db project_id oid t_store plan st1 E F R)
      as (db0 & p & -> & ->).
    set (stored := stamped (Routes.minimum_plan p) t_store).
    assert (Fr : find_one_plan (update_one_plan db0 project_id stored) project_id
                 = Some (stored ∪ default {["project_id" := VStr project_id]}
                                    (find_one_plan db0 project_id))).
    { unfold find_one_plan, update_one_plan. cbn [project_plans].
      apply find_upsert_rows. apply minimum_plan_no_project_id. }
    eexists _, _. split; [done|]. split; [exact Fr|].
    split; [by apply (plan_route_stored _ _ _ oid)|]. split.
    + unfold find_one_plan in Fr. apply find_some in Fr as [_ Fr].
      by apply plan_matches_project_id.
    + intros k v Hk. by apply lookup_union_Some_l.
Qed.


End PlanRouteStored.

(** X23 on an empty store and a planner that returns the example plan; the second request is made with a planner that fails. *)
Lemma plan_route_answers_from_the_store_witness :
  let stored := stamped (Routes.minimum_plan example_plan) 11 in
  exists row : doc,
    Routes.generate_plan_for_existing_project (libs := Reference.libraries)
      (fun _ => raise AttributeError) example_oid 12
      (Some (update_one_plan empty_database example_oid stored))
    = (Return (delete "_id" row), Some (update_one_plan empty_database example_oid stored))
    /\ row !! "project_id" = Some (VStr example_oid)
    /\ row !! "project_summary" = Some (VStr "A redesign of the site").
Proof.
  destruct (plan_route_answers_from_the_store (libs := Reference.libraries)
              (fun _ => ret example_plan) (fun _ => raise AttributeError)
              empty_database example_oid example_oid 11 12
              (stamped (Routes.minimum_plan example_plan) 11)
              (Some (update_one_plan empty_database example_oid
                       (stamped (Routes.minimum_plan example_plan) 11))))
    as (db1 & row & S & _ & R & K & O); [reflexivity | reflexivity |].
  injection S as <-.
  exists row. split; [exact R|]. split; [exact K|]. apply O. reflexivity.
Defined.

